(** * Experiment path naming and resolution: [experiments/experiments.py]

    A shallow embedding of [do_experiment], [dataset_to_dict] and
    [get_results_from_db_path], together with the part of the QCoDeS
    experiment store and run context these functions call into.

    Python strings are modelled as [string] (a sequence of characters),
    Python integers as [Z] (run numbers, which may be negative) or [nat]
    (counters and ids handed out by the store), exceptions as values of
    [Exception], and the functions that touch the database as
    computations in a state-and-exception monad over [World]. *)

From Stdlib Require Import String Ascii List ZArith Lia Bool Arith.
From Stdlib Require Import Decimal DecimalNat DecimalString.
Import ListNotations.

Local Open Scope string_scope.
Local Open Scope list_scope.

(** ** Python string primitives *)

Module PyStr.

Definition slash : ascii := "/"%char.

(** [s.split(sep)] for a one-character separator: never returns the
    empty list: the empty string splits into one empty segment. *)
Fixpoint split (sep : ascii) (s : string) : list string :=
  match s with
  | EmptyString => [EmptyString]
  | String ch rest =>
      if Ascii.eqb ch sep then EmptyString :: split sep rest
      else match split sep rest with
           | [] => [String ch EmptyString]
           | seg :: segs => String ch seg :: segs
           end
  end.

(** [sep.join(parts)]. *)
Fixpoint join (sep : string) (parts : list string) : string :=
  match parts with
  | [] => EmptyString
  | [p] => p
  | p :: ps => p ++ sep ++ join sep ps
  end.

(** [ch in s] *)
Fixpoint contains (ch : ascii) (s : string) : bool :=
  match s with
  | EmptyString => false
  | String c rest => Ascii.eqb c ch || contains ch rest
  end.

(** [parts[0]] of a list produced by [split]. *)
Definition first (parts : list string) : string := hd EmptyString parts.

(** [parts[-1]] of a list produced by [split]. *)
Definition final (parts : list string) : string := last parts EmptyString.

(** [parts[1:]] *)
Definition from_1 (parts : list string) : list string := tl parts.

(** [parts[1:-1]] *)
Definition from_1_to_last (parts : list string) : list string :=
  removelast (tl parts).

(** [f"{n}"] for a non-negative integer. *)
Definition str (n : nat) : string := NilZero.string_of_uint (Nat.to_uint n).

(** *** [int(s)] on a string

    Surrounding whitespace is stripped, one sign is allowed, and the
    digits may be grouped by single underscores.  Only the ASCII range
    is interpreted. *)

Definition is_space (c : ascii) : bool :=
  let n := nat_of_ascii c in
  (Nat.leb 9 n && Nat.leb n 13) || Nat.eqb n 32.

Definition digit_of (c : ascii) : option Z :=
  let n := nat_of_ascii c in
  if Nat.leb 48 n && Nat.leb n 57 then Some (Z.of_nat (n - 48)) else None.

Fixpoint lstrip (s : string) : string :=
  match s with
  | String c rest => if is_space c then lstrip rest else s
  | EmptyString => EmptyString
  end.

Fixpoint all_space (s : string) : bool :=
  match s with
  | EmptyString => true
  | String c rest => is_space c && all_space rest
  end.

(** Digits after at least one digit has been read: [acc] is the value
    so far, [after_us] tells whether the previous character was an
    underscore (which must then be followed by a digit). *)
Fixpoint digits (acc : Z) (after_us : bool) (s : string) : option Z :=
  match s with
  | EmptyString => if after_us then None else Some acc
  | String c rest =>
      match digit_of c with
      | Some d => digits (acc * 10 + d) false rest
      | None =>
          if after_us then None
          else if Ascii.eqb c "_"%char then digits acc true rest
          else if all_space s then Some acc
          else None
      end
  end.

Definition unsigned (s : string) : option Z :=
  match s with
  | EmptyString => None
  | String c rest =>
      match digit_of c with
      | Some d => digits d false rest
      | None => None
      end
  end.

Definition int (s : string) : option Z :=
  match lstrip s with
  | String "+" rest => unsigned rest
  | String "-" rest => option_map Z.opp (unsigned rest)
  | body => unsigned body
  end.

(** *** [repr(s)] and the characters of a string

    A [string] stands for a Python string whose characters are the
    code points below 256.  [int] above is exact on ASCII strings. *)

Definition is_ascii_char (c : ascii) : bool := Nat.ltb (nat_of_ascii c) 128.

Fixpoint is_ascii (s : string) : bool :=
  match s with
  | EmptyString => true
  | String c rest => is_ascii_char c && is_ascii rest
  end.

Definition hex_digit (n : nat) : ascii :=
  if Nat.ltb n 10 then ascii_of_nat (48 + n) else ascii_of_nat (87 + n).

(** The characters [repr] writes as an escape: the control characters
    and the unprintable part of the upper range. *)
Definition is_unprintable (c : ascii) : bool :=
  let n := nat_of_ascii c in
  Nat.ltb n 32 || (Nat.leb 127 n && Nat.leb n 160) || Nat.eqb n 173.

Definition backslash : ascii := "092"%char.

Definition repr_char (quote c : ascii) : string :=
  if Ascii.eqb c quote || Ascii.eqb c backslash
  then String backslash (String c EmptyString)
  else if Ascii.eqb c "009"%char then String backslash "t"
  else if Ascii.eqb c "010"%char then String backslash "n"
  else if Ascii.eqb c "013"%char then String backslash "r"
  else if is_unprintable c
  then String backslash
         (String "x"%char
            (String (hex_digit (nat_of_ascii c / 16))
               (String (hex_digit (nat_of_ascii c mod 16)) EmptyString)))
  else String c EmptyString.

Fixpoint repr_body (quote : ascii) (s : string) : string :=
  match s with
  | EmptyString => EmptyString
  | String c rest => repr_char quote c ++ repr_body quote rest
  end.

(** [repr(s)]: single quotes, unless the string has a single quote and
    no double quote. *)
Definition repr (s : string) : string :=
  let quote :=
    if contains "'"%char s && negb (contains "034"%char s)
    then "034"%char else "'"%char in
  String quote (repr_body quote s ++ String quote EmptyString).

(** The first [n] characters of a string. *)
Fixpoint take (n : nat) (s : string) : string :=
  match n, s with
  | S k, String c rest => String c (take k rest)
  | _, _ => EmptyString
  end.

(** A string of decimal digits. *)
Fixpoint all_digits (s : string) : bool :=
  match s with
  | EmptyString => true
  | String c rest =>
      match digit_of c with
      | Some _ => all_digits rest
      | None => false
      end
  end.

(** *** Decimal integer literals

    The literals of the language: a non-zero digit followed by digits,
    or zeros only, in both cases with single underscores allowed between
    digits. *)
Fixpoint literal_tail (zeros_only after_us : bool) (s : string) : bool :=
  match s with
  | EmptyString => negb after_us
  | String c rest =>
      match digit_of c with
      | Some d =>
          if zeros_only && negb (Z.eqb d 0) then false
          else literal_tail zeros_only false rest
      | None =>
          if Ascii.eqb c "_"%char && negb after_us
          then literal_tail zeros_only true rest
          else false
      end
  end.

Definition is_decimal_literal (s : string) : bool :=
  match s with
  | EmptyString => false
  | String c rest =>
      match digit_of c with
      | Some d => literal_tail (Z.eqb d 0) false rest
      | None => false
      end
  end.

End PyStr.

(** ** Values, exceptions and the state-and-exception monad *)

(** The exceptions the two functions raise or handle.  [StoreError]
    stands for a failure inside the store itself (a handle whose row is
    gone); the functions neither raise nor handle it. *)
Inductive Exception : Type :=
| ValueError (msg : string)
| KeyError (key : string)
| IndexError (msg : string)
| StoreError (msg : string).

Inductive Outcome (A : Type) : Type :=
| Return (a : A)
| Raise (e : Exception).
Arguments Return {A} a.
Arguments Raise {A} e.

(** The Python-side handle of an experiment.  [exp_id] is the internal
    experiment id; [id] is the externally visible id attribute, which
    neither [load_experiment_by_name] nor [new_experiment] sets. *)
Record Experiment : Type := mkExperiment {
  exp_id : nat;
  id : option nat
}.

(** A row of the experiments table. *)
Record ExperimentRow : Type := mkExperimentRow {
  row_exp_id : nat;
  row_name : string;
  row_sample_name : string;
  run_counter : nat
}.

(** One persisted row of a run: [data.items()]. *)
Definition Row : Type := list (string * Z).

(** A stored run. *)
Record DataSet : Type := mkDataSet {
  run_id : nat;
  run_exp_id : nat;
  parameters : list string;
  results : list Row
}.

(** A callback [(func, args)]; the function is opaque and named. *)
Definition Callback : Type := (string * list Z)%type.

(** Calls into the framework, in the order they are made. *)
Inductive Event : Type :=
| CallLoadExperimentByName (name sample : string)
| CallDataSet (location : string)
| CallNewExperiment (name sample : string)
| ReadLastCounter (e : Experiment)
| CallBeforeRun (cb : Callback)
| CallCreateRun (e : Experiment)
| CallAddResult (row : Row)
| CallAfterRun (cb : Callback)
| CallDataSets (e : Experiment).

Record World : Type := mkWorld {
  experiments : list ExperimentRow;
  runs : list DataSet;
  db_location : string;
  trace : list Event;
  stdout : list string
}.

Definition M (A : Type) : Type := World -> Outcome A * World.

Definition ret {A} (a : A) : M A := fun w => (Return a, w).

Definition raise {A} (e : Exception) : M A := fun w => (Raise e, w).

Definition bind {A B} (m : M A) (k : A -> M B) : M B :=
  fun w => match m w with
           | (Return a, w') => k a w'
           | (Raise e, w') => (Raise e, w')
           end.

(** [try: body except ValueError: handler] *)
Definition try_except_ValueError {A} (body handler : M A) : M A :=
  fun w => match body w with
           | (Raise (ValueError _), w') => handler w'
           | other => other
           end.

Declare Scope py_scope.
Delimit Scope py_scope with py.
Notation "x <- m ;; k" := (bind m (fun x => k))
  (at level 61, m at next level, right associativity) : py_scope.
Notation "m ;;; k" := (bind m (fun _ => k))
  (at level 61, right associativity) : py_scope.
Local Open Scope py_scope.

Definition emit (evs : list Event) (w : World) : World :=
  mkWorld (experiments w) (runs w) (db_location w) (trace w ++ evs) (stdout w).

Definition log (ev : Event) : M unit := fun w => (Return tt, emit [ev] w).

Definition print (line : string) : M unit :=
  fun w => (Return tt,
            mkWorld (experiments w) (runs w) (db_location w)
                    (trace w) (stdout w ++ [line])).

(** ** The experiment store and the run context (QCoDeS)

    The framework is not part of the repository.  What follows is the
    behaviour the two functions rely on: an experiments table looked up
    by name and sample name (by name alone when the sample name is
    empty), where anything but exactly one match is a [ValueError];
    experiment ids and run ids handed out in sequence; a run context
    that gives its run to the measurement's experiment when that one
    has runs already and to the last experiment of the table otherwise;
    a run counter per experiment that advances when it gets a run; and
    the runs of an experiment listed in the order they were created.
    Callbacks and subscribers are opaque and only recorded; calls that
    the functions do not guard are taken to succeed. *)

(** An empty sample name is not compared: the lookup then goes by the
    experiment name alone. *)
Definition matches (name sample : string) (r : ExperimentRow) : bool :=
  String.eqb (row_name r) name
  && match sample with
     | EmptyString => true
     | _ => String.eqb (row_sample_name r) sample
     end.

Definition lookup (name sample : string) (w : World) : list ExperimentRow :=
  filter (matches name sample) (experiments w).

(** Lookup by name: exactly one match is returned, none or several
    raise [ValueError].  The handle that comes back carries the internal
    experiment id but not the [id] attribute (the defect line 56 of
    [do_experiment] works around). *)
Definition load_experiment_by_name (name sample : string) : M Experiment :=
  log (CallLoadExperimentByName name sample) ;;;
  fun w => match lookup name sample w with
           | [] => (Raise (ValueError "Experiment not found"), w)
           | [r] => (Return (mkExperiment (row_exp_id r) None), w)
           | _ :: _ :: _ =>
               (Raise (ValueError "Many experiments matching your request found"), w)
           end.

(** [qcodes.config["core"]["db_location"]] *)
Definition config_db_location : M string := fun w => (Return (db_location w), w).

(** [DataSet(db_location)]: makes sure the database at that location
    is initialised; existing rows are left alone. *)
Definition DataSet_init (location : string) : M unit :=
  log (CallDataSet location).

Definition fresh_exp_id (w : World) : nat :=
  S (list_max (map row_exp_id (experiments w))).

(** A new experiment gets the next id and a run counter of zero; its
    handle carries the internal experiment id and no [id] attribute. *)
Definition new_experiment (name sample : string) : M Experiment :=
  log (CallNewExperiment name sample) ;;;
  fun w =>
    let k := fresh_exp_id w in
    (Return (mkExperiment k None),
     mkWorld (experiments w ++ [mkExperimentRow k name sample 0])
             (runs w) (db_location w) (trace w) (stdout w)).

Definition find_row (k : nat) (w : World) : option ExperimentRow :=
  find (fun r => Nat.eqb (row_exp_id r) k) (experiments w).

(** [experiment.last_counter] *)
Definition last_counter (e : Experiment) : M nat :=
  log (ReadLastCounter e) ;;;
  fun w => match find_row (exp_id e) w with
           | Some r => (Return (run_counter r), w)
           | None => (Raise (StoreError "no such experiment"), w)
           end.

(** [experiment.data_sets()]: the runs of the experiment, in run order. *)
Definition data_sets (e : Experiment) : M (list DataSet) :=
  log (CallDataSets e) ;;;
  fun w => (Return (filter (fun d => Nat.eqb (run_exp_id d) (exp_id e)) (runs w)), w).

Record Measurement : Type := mkMeasurement {
  exp : Experiment;
  subscribers : list string;
  before_run : list Callback;
  after_run : list Callback;
  registered : list string;
  write_period_ms : option nat
}.

(** What a sweep object offers: the parameters it registers and the rows
    it produces when iterated. *)
Record Sweep : Type := mkSweep {
  sweep_parameters : list string;
  sweep_rows : list Row
}.

Definition SweepMeasurement (e : Experiment) : Measurement :=
  mkMeasurement e [] [] [] [] None.

Definition add_subscriber (axis : string) (m : Measurement) : Measurement :=
  mkMeasurement (exp m) (subscribers m ++ [axis]) (before_run m) (after_run m)
                (registered m) (write_period_ms m).

Definition add_before_run (cb : Callback) (m : Measurement) : Measurement :=
  mkMeasurement (exp m) (subscribers m) (before_run m ++ [cb]) (after_run m)
                (registered m) (write_period_ms m).

Definition add_after_run (cb : Callback) (m : Measurement) : Measurement :=
  mkMeasurement (exp m) (subscribers m) (before_run m) (after_run m ++ [cb])
                (registered m) (write_period_ms m).

Definition register_sweep (s : Sweep) (m : Measurement) : Measurement :=
  mkMeasurement (exp m) (subscribers m) (before_run m) (after_run m)
                (registered m ++ sweep_parameters s) (write_period_ms m).

Definition set_write_period (ms : nat) (m : Measurement) : Measurement :=
  mkMeasurement (exp m) (subscribers m) (before_run m) (after_run m)
                (registered m) (Some ms).

Fixpoint for_each {A} (f : A -> M unit) (l : list A) : M unit :=
  match l with
  | [] => ret tt
  | a :: rest => f a ;;; for_each f rest
  end.

Definition bump_counter (k : nat) (r : ExperimentRow) : ExperimentRow :=
  if Nat.eqb (row_exp_id r) k
  then mkExperimentRow (row_exp_id r) (row_name r) (row_sample_name r)
                       (S (run_counter r))
  else r.

(** The id of the last experiment of the table. *)
Definition last_exp_id (w : World) : nat :=
  list_max (map row_exp_id (experiments w)).

(** The experiment a new run of the measurement goes to: the
    measurement's own when it has runs already, the last experiment of
    the table when it has none. *)
Definition run_target (e : Experiment) (w : World) : nat :=
  match filter (fun d => Nat.eqb (run_exp_id d) (exp_id e)) (runs w) with
  | [] => last_exp_id w
  | _ :: _ => exp_id e
  end.

(** Entering [measurement.run()]: the before-run callbacks, then a new
    run of the target experiment; its run id is the next free one and
    the target's run counter advances. *)
Definition enter_run (m : Measurement) : M nat :=
  for_each (fun cb => log (CallBeforeRun cb)) (before_run m) ;;;
  log (CallCreateRun (exp m)) ;;;
  fun w =>
    match experiments w, find_row (run_target (exp m) w) w with
    | [], _ => (Raise (ValueError "No experiments found"), w)
    | _, None => (Raise (StoreError "no such experiment"), w)
    | _, Some _ =>
        let rid := S (length (runs w)) in
        (Return rid,
         mkWorld (map (bump_counter (run_target (exp m) w)) (experiments w))
                 (runs w ++ [mkDataSet rid (run_target (exp m) w) (registered m) []])
                 (db_location w) (trace w) (stdout w))
    end.

Definition append_row (rid : nat) (row : Row) (d : DataSet) : DataSet :=
  if Nat.eqb (run_id d) rid
  then mkDataSet (run_id d) (run_exp_id d) (parameters d) (results d ++ [row])
  else d.

(** [datasaver.add_result] applied to the items of one row. *)
Definition add_result (rid : nat) (row : Row) : M unit :=
  log (CallAddResult row) ;;;
  fun w => (Return tt,
            mkWorld (experiments w) (map (append_row rid row) (runs w))
                    (db_location w) (trace w) (stdout w)).

(** Leaving [measurement.run()]: the after-run callbacks. *)
Definition exit_run (m : Measurement) : M unit :=
  for_each (fun cb => log (CallAfterRun cb)) (after_run m).

(** [datasaver.dataset] *)
Definition dataset_of (rid : nat) : M DataSet :=
  fun w => match find (fun d => Nat.eqb (run_id d) rid) (runs w) with
           | Some d => (Return d, w)
           | None => (Raise (StoreError "no such run"), w)
           end.

(** [l[i]] on a Python list. *)
Definition py_index {A} (l : list A) (i : Z) : option A :=
  let n := Z.of_nat (length l) in
  if (0 <=? i)%Z then nth_error l (Z.to_nat i)
  else if (- n <=? i)%Z then nth_error l (Z.to_nat (n + i))
  else None.

(** ** [experiments.py] *)

(** What [do_experiment] can hand back, one constructor per key of its
    [results] dictionary. *)
Inductive ResultItem : Type :=
| PathItem (data_set_path : string)
| DataIdItem (dataid : nat)
| DataSetItem (dataset : DataSet)
| ExperimentItem (experiment : Experiment)
| MeasurementItem (measurement : Measurement).

(** Lines 47-52: the experiment and sample name of a base path. *)
Definition parse_base_path (base_path : string) : string * string :=
  let name_parts := PyStr.split PyStr.slash base_path in
  let experiment_name := PyStr.first name_parts in
  let sample_name :=
    if Nat.eqb (length name_parts) 1 then "None"
    else PyStr.join "/" (PyStr.from_1 name_parts) in
  (experiment_name, sample_name).

(** Lines 54-62: load the experiment and set its [id] from its [exp_id];
    on [ValueError] initialise the database and create the experiment. *)
Definition resolve_experiment (experiment_name sample_name : string)
  : M Experiment :=
  try_except_ValueError
    (experiment <- load_experiment_by_name experiment_name sample_name ;;
     ret (mkExperiment (exp_id experiment) (Some (exp_id experiment))))
    (location <- config_db_location ;;
     DataSet_init location ;;;
     new_experiment experiment_name sample_name).

(** Lines 94-100: [results[k]]. *)
Definition results_lookup (data_set_path : string) (dataid : nat)
    (dataset : DataSet) (experiment : Experiment) (measurement : Measurement)
    (k : string) : Outcome ResultItem :=
  if String.eqb k "data_set_path" then Return (PathItem data_set_path)
  else if String.eqb k "dataid" then Return (DataIdItem dataid)
  else if String.eqb k "dataset" then Return (DataSetItem dataset)
  else if String.eqb k "experiment" then Return (ExperimentItem experiment)
  else if String.eqb k "measurement" then Return (MeasurementItem measurement)
  else Raise (KeyError k).

(** Line 102: [[results[k] for k in return_format]]. *)
Fixpoint select (look : string -> Outcome ResultItem) (return_format : list string)
  : Outcome (list ResultItem) :=
  match return_format with
  | [] => Return []
  | k :: rest =>
      match look k with
      | Raise e => Raise e
      | Return item =>
          match select look rest with
          | Raise e => Raise e
          | Return items => Return (item :: items)
          end
      end
  end.

Definition lift {A} (o : Outcome A) : M A := fun w => (o, w).

(** Lines 65-81: the measurement with its subscribers, callbacks, sweep
    and write period (1.0 s). *)
Definition build_measurement (experiment : Experiment) (setup : list Callback)
    (sweep_object : Sweep) (cleanup : list Callback)
    (live_plot_axes : option (list (string * list string))) : Measurement :=
  let measurement := SweepMeasurement experiment in
  let measurement :=
    match live_plot_axes with
    | None => measurement
    | Some axes =>
        fold_left (fun m axis => add_subscriber (fst axis) m) axes measurement
    end in
  let measurement := fold_left (fun m cb => add_before_run cb m) setup measurement in
  let measurement := register_sweep sweep_object measurement in
  let measurement := set_write_period 1000 measurement in
  fold_left (fun m cb => add_after_run cb m) cleanup measurement.

(** Lines 64-102: what [do_experiment] does with the resolved
    experiment. *)
Definition run_measurement (base_path : string) (experiment : Experiment)
    (setup : list Callback) (sweep_object : Sweep) (cleanup : list Callback)
    (live_plot_axes : option (list (string * list string)))
    (return_format : list string) : M (list ResultItem) :=
  counter <- last_counter experiment ;;
  let measurement :=
    build_measurement experiment setup sweep_object cleanup live_plot_axes in
  datasaver <- enter_run measurement ;;
  for_each (add_result datasaver) (sweep_rows sweep_object) ;;;
  exit_run measurement ;;;
  let dataid := datasaver in
  let data_set_path := (base_path ++ "/" ++ PyStr.str counter)%string in
  dataset <- dataset_of datasaver ;;
  print ("Completed measurement. Database path: " ++ data_set_path)%string ;;;
  lift (select (results_lookup data_set_path dataid dataset experiment measurement)
               return_format).

(** Lines 44-45: by default only the data set path is returned. *)
Definition default_format (return_format : option (list string)) : list string :=
  match return_format with
  | None => ["data_set_path"]
  | Some names => names
  end.

Definition do_experiment (base_path : string) (setup : list Callback)
    (sweep_object : Sweep) (cleanup : list Callback)
    (live_plot_axes : option (list (string * list string)))
    (return_format : option (list string)) : M (list ResultItem) :=
  let return_format := default_format return_format in
  let '(experiment_name, sample_name) := parse_base_path base_path in
  experiment <- resolve_experiment experiment_name sample_name ;;
  run_measurement base_path experiment setup sweep_object cleanup
                  live_plot_axes return_format.

(** A column read back from a run: a two-dimensional array with one
    cell per row, or a one-dimensional array. *)
Inductive Values : Type :=
| Array2 (cells : list (list (option Z)))
| Array1 (cells : list (option Z)).

Definition cell (name : string) (row : Row) : option Z :=
  option_map snd (find (fun kv => String.eqb (fst kv) name) row).

(** [results.get_data(name)] *)
Definition get_data (d : DataSet) (name : string) : list (list (option Z)) :=
  map (fun row => [cell name row]) (results d).

(** [data_dict[name] = values] on an insertion-ordered dictionary. *)
Fixpoint dict_set (name : string) (v : Values) (d : list (string * Values))
  : list (string * Values) :=
  match d with
  | [] => [(name, v)]
  | (k, old) :: rest =>
      if String.eqb k name then (k, v) :: rest
      else (k, old) :: dict_set name v rest
  end.

(** [np.array(cells)]: a list of one-cell rows becomes a two-dimensional
    array, the empty list a one-dimensional empty one. *)
Definition np_array (cells : list (list (option Z))) : Values :=
  match cells with
  | [] => Array1 []
  | _ :: _ => Array2 cells
  end.

(** [values.flatten()] *)
Definition flatten (values : Values) : Values :=
  match values with
  | Array2 cells => Array1 (concat cells)
  | Array1 cells => Array1 cells
  end.

Definition dataset_to_dict (d : DataSet) (flatten_values : bool)
  : list (string * Values) :=
  fold_left
    (fun data_dict name =>
       let values := np_array (get_data d name) in
       let values := if flatten_values then flatten values else values in
       dict_set name values data_dict)
    (parameters d) [].

Inductive Fetched : Type :=
| AsDataSet (d : DataSet)
| AsDict (data_dict : list (string * Values)).

(** The message of [int]: the argument is shown by [repr], cut after
    200 characters. *)
Definition invalid_literal (s : string) : string :=
  ("invalid literal for int() with base 10: "
   ++ PyStr.take 200 (PyStr.repr s))%string.

(** Lines 126-129: experiment name, run number and sample name of a
    database path. *)
Definition decode_db_path (db_path : string) : Outcome (string * Z * string) :=
  let path_parts := PyStr.split PyStr.slash db_path in
  let experiment_name := PyStr.first path_parts in
  match PyStr.int (PyStr.final path_parts) with
  | None => Raise (ValueError (invalid_literal (PyStr.final path_parts)))
  | Some run_number =>
      let sample_name := PyStr.join "/" (PyStr.from_1_to_last path_parts) in
      Return (experiment_name, run_number, sample_name)
  end.

Definition not_unique_message : string :=
  ("The experiment and sample name combination is not unique. " ++
   "Are you sure you have used the 'do_experiment' function to " ++
   "acquire data?")%string.

(** Lines 131-145: look the experiment up and fetch the run. *)
Definition fetch_run (experiment_name : string) (run_number : Z)
    (sample_name : string) (return_as_dict flatten_values : bool) : M Fetched :=
  exp <- try_except_ValueError
           (load_experiment_by_name experiment_name sample_name)
           (raise (ValueError not_unique_message)) ;;
  all_runs <- data_sets exp ;;
  match py_index all_runs run_number with
  | None => raise (IndexError "list index out of range")
  | Some results =>
      if return_as_dict
      then ret (AsDict (dataset_to_dict results flatten_values))
      else ret (AsDataSet results)
  end.

Definition get_results_from_db_path (db_path : string)
    (return_as_dict flatten_values : bool) : M Fetched :=
  decoded <- lift (decode_db_path db_path) ;;
  let '(experiment_name, run_number, sample_name) := decoded in
  fetch_run experiment_name run_number sample_name return_as_dict flatten_values.

(** The store the example script starts from, and its sweep. *)
Definition empty_world : World := mkWorld [] [] "experiments.db" [] [].

Definition example_sweep : Sweep :=
  mkSweep ["x"; "m"]
          [[("x", 0%Z); ("m", 0%Z)]; [("x", 1%Z); ("m", 1%Z)]; [("x", 2%Z); ("m", 4%Z)]].

Definition no_callback : list Callback := [("<lambda>", [])].


(** A store in which two experiments share name and sample name. *)
Definition ambiguous_world : World :=
  mkWorld [mkExperimentRow 1 "expA" "sampleA" 0; mkExperimentRow 2 "expA" "sampleA" 0]
          [] "experiments.db" [] [].

(** The store after the example script's [do_experiment] call. *)
Definition world_after_example : World :=
  snd (do_experiment "cool_experiment/my_sample" no_callback example_sweep
                     no_callback None (Some ["data_set_path"]) empty_world).

(** ** Auxiliary definitions for the proofs *)

(** The runs once every row of a sweep has been added to run [rid]. *)
Definition add_rows (rid : nat) (rows : list Row) (rs : list DataSet)
  : list DataSet :=
  fold_left (fun rs row => map (append_row rid row) rs) rows rs.

(** The world once [measurement.run()] has been entered, the rows added
    and the context left. *)
Definition world_after_run (m : Measurement) (rows : list Row) (w : World)
  : World :=
  let rid := S (length (runs w)) in
  mkWorld (map (bump_counter (run_target (exp m) w)) (experiments w))
          (add_rows rid rows
                    (runs w ++ [mkDataSet rid (run_target (exp m) w) (registered m) []]))
          (db_location w)
          (trace w ++ map CallBeforeRun (before_run m)
                   ++ [CallCreateRun (exp m)]
                   ++ map CallAddResult rows
                   ++ map CallAfterRun (after_run m))
          (stdout w).

Definition printed (line : string) (w : World) : World :=
  mkWorld (experiments w) (runs w) (db_location w) (trace w) (stdout w ++ [line]).

(** The keys of the [results] dictionary of [do_experiment]. *)
Definition result_keys : list string :=
  ["data_set_path"; "dataid"; "dataset"; "experiment"; "measurement"].

Definition is_result_key (k : string) : bool :=
  existsb (String.eqb k) result_keys.

(** The runs of the experiment with internal id [k]. *)
Definition runs_of (k : nat) (w : World) : list DataSet :=
  filter (fun d => Nat.eqb (run_exp_id d) k) (runs w).

(** What [get_results_from_db_path] returns for the run it found. *)
Definition fetched (as_dict flatten : bool) (d : DataSet) : Fetched :=
  if as_dict then AsDict (dataset_to_dict d flatten) else AsDataSet d.

(** Zero-based positions of a list. *)
Definition position_exists {A} (l : list A) (n : Z) : Prop :=
  (0 <= n < Z.of_nat (length l))%Z.

(** Events in which the framework is handed an experiment handle. *)
Definition handle_of (ev : Event) : option Experiment :=
  match ev with
  | ReadLastCounter e | CallCreateRun e | CallDataSets e => Some e
  | _ => None
  end.

Definition handles_used (evs : list Event) : list Experiment :=
  flat_map (fun ev => match handle_of ev with Some e => [e] | None => [] end) evs.

(** The key of the [results] dictionary an item was stored under. *)
Definition item_key (item : ResultItem) : string :=
  match item with
  | PathItem _ => "data_set_path"
  | DataIdItem _ => "dataid"
  | DataSetItem _ => "dataset"
  | ExperimentItem _ => "experiment"
  | MeasurementItem _ => "measurement"
  end.

(** [data_dict.get(name)] *)
Definition dict_get (name : string) (d : list (string * Values)) : option Values :=
  option_map snd (find (fun kv => String.eqb (fst kv) name) d).

(** The column of a parameter as [dataset_to_dict] stores it. *)
Definition column (d : DataSet) (flatten_values : bool) (name : string) : Values :=
  if flatten_values then Array1 (map (cell name) (results d))
  else match results d with
       | [] => Array1 []
       | _ :: _ => Array2 (map (fun row => [cell name row]) (results d))
       end.

(** The rows stored under exactly this name and sample name. *)
Definition same_identity (name sample : string) (r : ExperimentRow) : bool :=
  String.eqb (row_name r) name && String.eqb (row_sample_name r) sample.

(** No two experiments share name and sample name. *)
Definition unique_identities (w : World) : Prop :=
  forall name sample,
    length (filter (same_identity name sample) (experiments w)) <= 1.

(** A store whose counters and ids agree with its runs: every run
    counter is the number of runs of its experiment, every run belongs
    to an experiment of the table, and run ids do not exceed the number
    of runs. *)
Definition consistent (w : World) : Prop :=
  (forall r, In r (experiments w) ->
             run_counter r = length (runs_of (row_exp_id r) w))
  /\ (forall d, In d (runs w) ->
                In (run_exp_id d) (map row_exp_id (experiments w)))
  /\ (forall d, In d (runs w) -> run_id d <= length (runs w)).

(** The experiment id [resolve_experiment] settles on, and the table it
    leaves. *)
Definition resolved_id (name sample : string) (w : World) : nat :=
  match lookup name sample w with
  | [r] => row_exp_id r
  | _ => fresh_exp_id w
  end.

Definition resolved_rows (name sample : string) (w : World)
  : list ExperimentRow :=
  match lookup name sample w with
  | [r] => experiments w
  | _ => experiments w ++ [mkExperimentRow (fresh_exp_id w) name sample 0]
  end.

(** The handle [resolve_experiment] returns: a loaded one with its [id]
    set from its [exp_id], a created one as created. *)
Definition resolved_experiment (name sample : string) (w : World) : Experiment :=
  match lookup name sample w with
  | [r] => mkExperiment (row_exp_id r) (Some (row_exp_id r))
  | _ => mkExperiment (fresh_exp_id w) None
  end.

(** The experiment that gets the run of a [do_experiment] call: the
    resolved one when it has runs already, the last of the table
    otherwise. *)
Definition resolved_target (name sample : string) (w : World) : nat :=
  match runs_of (resolved_id name sample w) w with
  | [] => list_max (map row_exp_id (resolved_rows name sample w))
  | _ :: _ => resolved_id name sample w
  end.

(** The run a sweep leaves in the store. *)
Definition recorded_run (w : World) (k : nat) (sweep : Sweep) : DataSet :=
  mkDataSet (S (length (runs w))) k (sweep_parameters sweep) (sweep_rows sweep).

(** One call of [do_experiment], and the store after a list of calls. *)
Record Call : Type := mkCall {
  call_base_path : string;
  call_setup : list Callback;
  call_sweep : Sweep;
  call_cleanup : list Callback;
  call_axes : option (list (string * list string));
  call_format : option (list string)
}.

Definition after_call (w : World) (c : Call) : World :=
  snd (do_experiment (call_base_path c) (call_setup c) (call_sweep c)
                     (call_cleanup c) (call_axes c) (call_format c) w).

Definition after_calls (calls : list Call) (w : World) : World :=
  fold_left after_call calls w.

(** * Properties *)

(** ** The example script *)

Example split_example :
  PyStr.split PyStr.slash "cool_experiment/my_sample/0"
  = ["cool_experiment"; "my_sample"; "0"]
  /\ PyStr.split PyStr.slash EmptyString = [EmptyString]
  /\ PyStr.split PyStr.slash "a/b/" = ["a"; "b"; EmptyString].
Proof. vm_compute. auto. Qed.

Example int_examples :
  PyStr.int "12" = Some 12%Z /\ PyStr.int " -1_0 " = Some (-10)%Z
  /\ PyStr.int "007" = Some 7%Z /\ PyStr.int EmptyString = None
  /\ PyStr.int "1.5" = None /\ PyStr.int "my_sample" = None
  /\ PyStr.int "1__0" = None /\ PyStr.int "_1" = None
  /\ PyStr.int "1_" = None /\ PyStr.int "+-1" = None
  /\ PyStr.str 120 = "120" /\ PyStr.str 0 = "0".
Proof. vm_compute. repeat (split; [reflexivity|]). reflexivity. Qed.

Example example_script :
  do_experiment "cool_experiment/my_sample" no_callback example_sweep
                no_callback None (Some ["data_set_path"]) empty_world
  = (Return [PathItem "cool_experiment/my_sample/0"], world_after_example)
  /\ fst (get_results_from_db_path "cool_experiment/my_sample/0" true false
                                   world_after_example)
     = Return (AsDict [("x", Array2 [[Some 0%Z]; [Some 1%Z]; [Some 2%Z]]);
                       ("m", Array2 [[Some 0%Z]; [Some 1%Z]; [Some 4%Z]])])
  /\ fst (get_results_from_db_path "cool_experiment/my_sample/0" true true
                                   world_after_example)
     = Return (AsDict [("x", Array1 [Some 0%Z; Some 1%Z; Some 2%Z]);
                       ("m", Array1 [Some 0%Z; Some 1%Z; Some 4%Z])]).
Proof.
  split; [vm_compute; reflexivity|].
  split; vm_compute; reflexivity.
Qed.

(** ** Splitting and joining *)

Section SplitJoin.

Variable sep : ascii.

Lemma split_nonempty (s : string) : PyStr.split sep s <> [].
Proof.
  destruct s as [|ch rest]; simpl; [discriminate|].
  destruct (Ascii.eqb ch sep); [discriminate|].
  destruct (PyStr.split sep rest); discriminate.
Qed.

Lemma split_cons (ch : ascii) (rest : string) :
  Ascii.eqb ch sep = false ->
  exists seg segs,
    PyStr.split sep rest = seg :: segs /\
    PyStr.split sep (String ch rest) = String ch seg :: segs.
Proof.
  intros Hne. simpl. rewrite Hne.
  destruct (PyStr.split sep rest) as [|seg segs] eqn:E.
  - now apply split_nonempty in E.
  - now exists seg, segs.
Qed.

Lemma split_no_sep (s : string) :
  PyStr.contains sep s = false -> PyStr.split sep s = [s].
Proof.
  induction s as [|ch rest IH]; simpl; intros H; [reflexivity|].
  apply orb_false_iff in H as [Hch Hrest].
  rewrite Hch, (IH Hrest). reflexivity.
Qed.

Lemma split_app (a b : string) :
  PyStr.split sep (a ++ String sep b)
  = PyStr.split sep a ++ PyStr.split sep b.
Proof.
  induction a as [|ch rest IH]; simpl.
  - now rewrite Ascii.eqb_refl.
  - destruct (Ascii.eqb ch sep); rewrite IH; [reflexivity|].
    destruct (PyStr.split sep rest) as [|seg segs] eqn:E; [|reflexivity].
    now apply split_nonempty in E.
Qed.

Lemma join_cons_char (ch : ascii) (seg : string) (segs : list string) (j : string) :
  PyStr.join j (String ch seg :: segs) = String ch (PyStr.join j (seg :: segs)).
Proof. destruct segs; reflexivity. Qed.

Lemma join_split (s : string) :
  PyStr.join (String sep EmptyString) (PyStr.split sep s) = s.
Proof.
  induction s as [|ch rest IH]; [reflexivity|].
  destruct (Ascii.eqb ch sep) eqn:E.
  - apply Ascii.eqb_eq in E; subst ch. simpl. rewrite Ascii.eqb_refl.
    destruct (PyStr.split sep rest) as [|seg segs] eqn:Es.
    + now apply split_nonempty in Es.
    + change (PyStr.join (String sep EmptyString) (EmptyString :: seg :: segs))
        with (String sep (PyStr.join (String sep EmptyString) (seg :: segs))).
      now rewrite IH.
  - destruct (split_cons ch rest E) as (seg & segs & Hs & Hc).
    rewrite Hc, join_cons_char. rewrite Hs in IH. now rewrite IH.
Qed.

End SplitJoin.

Lemma last_app_single {A} (l : list A) (x d : A) : last (l ++ [x]) d = x.
Proof. apply last_last. Qed.

(** ** Printing and reading back a counter *)

Lemma digits_string_of_uint (d : Decimal.uint) (a : nat) :
  PyStr.digits (Z.of_nat a) false (NilEmpty.string_of_uint d)
  = Some (Z.of_nat (Nat.of_uint_acc d a)).
Proof.
  revert a.
  induction d; intros a; simpl; [reflexivity| ..];
    rewrite Nat.tail_mul_spec;
    match goal with
    | |- PyStr.digits ?z _ _ = Some (Z.of_nat (Nat.of_uint_acc _ ?n)) =>
        replace z with (Z.of_nat n) by lia
    end; apply IHd.
Qed.

Lemma unsigned_string_of_uint (d : Decimal.uint) :
  d <> Decimal.Nil ->
  PyStr.int (NilEmpty.string_of_uint d) = Some (Z.of_nat (Nat.of_uint d)).
Proof.
  intros Hd. unfold Nat.of_uint.
  destruct d; [congruence| ..].
  - exact (digits_string_of_uint d 0).
  - exact (digits_string_of_uint d 1).
  - exact (digits_string_of_uint d 2).
  - exact (digits_string_of_uint d 3).
  - exact (digits_string_of_uint d 4).
  - exact (digits_string_of_uint d 5).
  - exact (digits_string_of_uint d 6).
  - exact (digits_string_of_uint d 7).
  - exact (digits_string_of_uint d 8).
  - exact (digits_string_of_uint d 9).
Qed.

Lemma int_str (n : nat) : PyStr.int (PyStr.str n) = Some (Z.of_nat n).
Proof.
  unfold PyStr.str.
  rewrite <- (DecimalNat.Unsigned.of_to n) at 2.
  destruct (Nat.to_uint n) eqn:E; [reflexivity| ..];
    apply unsigned_string_of_uint; discriminate.
Qed.

Lemma string_of_uint_no_slash (d : Decimal.uint) :
  PyStr.contains PyStr.slash (NilEmpty.string_of_uint d) = false.
Proof. induction d; simpl; auto. Qed.

Lemma str_no_slash (n : nat) : PyStr.contains PyStr.slash (PyStr.str n) = false.
Proof.
  unfold PyStr.str, NilZero.string_of_uint.
  destruct (Nat.to_uint n) eqn:E; [reflexivity| ..];
    apply string_of_uint_no_slash.
Qed.

(** ** The path codec *)

Lemma append_assoc (a b c : string) : ((a ++ b) ++ c = a ++ (b ++ c))%string.
Proof. induction a as [|ch a IH]; simpl; [reflexivity|now rewrite IH]. Qed.

Lemma split_locator (c rest : string) :
  PyStr.contains PyStr.slash c = false ->
  PyStr.split PyStr.slash (c ++ "/" ++ rest)
  = c :: PyStr.split PyStr.slash rest.
Proof.
  intros Hc.
  change (c ++ "/" ++ rest)%string with (c ++ String PyStr.slash rest)%string.
  now rewrite split_app, (split_no_sep _ _ Hc).
Qed.

Lemma decode_db_path_encoded (c s : string) (n : nat) :
  PyStr.contains PyStr.slash c = false ->
  decode_db_path (c ++ "/" ++ s ++ "/" ++ PyStr.str n)
  = Return (c, Z.of_nat n, s).
Proof.
  intros Hc. unfold decode_db_path.
  rewrite (split_locator c _ Hc).
  change (s ++ "/" ++ PyStr.str n)%string
    with (s ++ String PyStr.slash (PyStr.str n))%string.
  rewrite split_app, (split_no_sep _ _ (str_no_slash n)).
  unfold PyStr.final, PyStr.first, PyStr.from_1_to_last.
  rewrite app_comm_cons, last_app_single, int_str. simpl tl.
  rewrite removelast_last.
  change "/"%string with (String PyStr.slash EmptyString).
  now rewrite join_split.
Qed.

(** C3: the locator [do_experiment] emits for base path [c/s] and counter
    [n] is decoded by [get_results_from_db_path] into experiment name
    [c], run number [n] and sample name [s], whenever [c] has no slash. *)
Theorem locator_round_trip (c s : string) (n : nat) :
  PyStr.contains PyStr.slash c = false ->
  let base_path := (c ++ "/" ++ s)%string in
  let locator := (base_path ++ "/" ++ PyStr.str n)%string in
  PyStr.first (PyStr.split PyStr.slash locator) = c
  /\ PyStr.int (PyStr.final (PyStr.split PyStr.slash locator)) = Some (Z.of_nat n)
  /\ PyStr.join "/" (PyStr.from_1_to_last (PyStr.split PyStr.slash locator)) = s
  /\ decode_db_path locator = Return (c, Z.of_nat n, s)
  /\ forall as_dict flatten,
       get_results_from_db_path locator as_dict flatten
       = fetch_run c (Z.of_nat n) s as_dict flatten.
Proof.
  intros Hc base_path locator.
  assert (Hloc : locator = (c ++ "/" ++ s ++ "/" ++ PyStr.str n)%string).
  { subst locator base_path. rewrite append_assoc. reflexivity. }
  pose proof (decode_db_path_encoded c s n Hc) as Hd.
  rewrite <- Hloc in Hd.
  assert (Hparts : PyStr.first (PyStr.split PyStr.slash locator) = c
                   /\ PyStr.int (PyStr.final (PyStr.split PyStr.slash locator))
                      = Some (Z.of_nat n)
                   /\ PyStr.join "/" (PyStr.from_1_to_last
                                        (PyStr.split PyStr.slash locator)) = s).
  { unfold decode_db_path in Hd.
    destruct (PyStr.int (PyStr.final (PyStr.split PyStr.slash locator)));
      [|discriminate].
    injection Hd as E1 E2 E3. rewrite E2. auto. }
  destruct Hparts as (H1 & H2 & H3).
  repeat split; auto.
  intros as_dict flatten. unfold get_results_from_db_path, bind, lift.
  rewrite Hd. reflexivity.
Qed.

Lemma locator_round_trip_witness :
  get_results_from_db_path "cool_experiment/my_sample/0" true false
  = fetch_run "cool_experiment" 0%Z "my_sample" true false.
Proof.
  exact (proj2 (proj2 (proj2 (proj2
    (locator_round_trip "cool_experiment" "my_sample" 0 eq_refl)))) true false).
Defined.

Lemma parse_base_path_joined (c s : string) :
  PyStr.contains PyStr.slash c = false ->
  parse_base_path (c ++ "/" ++ s) = (c, s).
Proof.
  intros Hc. unfold parse_base_path.
  rewrite (split_locator c s Hc).
  unfold PyStr.first, PyStr.from_1. simpl hd. simpl tl. simpl length.
  destruct (PyStr.split PyStr.slash s) as [|seg segs] eqn:E.
  - now apply split_nonempty in E.
  - simpl Nat.eqb. rewrite <- E.
    change "/"%string with (String PyStr.slash EmptyString).
    now rewrite join_split.
Qed.

(** C4: for a collection and a sub-identifier without slashes, the base
    path [collection/sub_identifier] is parsed by [do_experiment] into
    exactly that experiment name and that sample name; the parse has no
    third component. *)
Theorem identity_round_trip (collection sub_identifier : string) :
  PyStr.contains PyStr.slash collection = false ->
  PyStr.contains PyStr.slash sub_identifier = false ->
  parse_base_path (collection ++ "/" ++ sub_identifier)
  = (collection, sub_identifier)
  /\ forall setup sweep cleanup axes fmt,
       do_experiment (collection ++ "/" ++ sub_identifier)
                     setup sweep cleanup axes fmt
       = (experiment <- resolve_experiment collection sub_identifier ;;
          run_measurement (collection ++ "/" ++ sub_identifier) experiment
                          setup sweep cleanup axes
                          (default_format fmt)).
Proof.
  intros Hc _.
  pose proof (parse_base_path_joined collection sub_identifier Hc) as Hp.
  split; [exact Hp|].
  intros. unfold do_experiment. rewrite Hp. reflexivity.
Qed.

Lemma identity_round_trip_witness :
  parse_base_path "cool_experiment/my_sample" = ("cool_experiment", "my_sample").
Proof.
  exact (proj1 (identity_round_trip "cool_experiment" "my_sample" eq_refl eq_refl)).
Defined.


(** ** Running computations in the store *)

Lemma emit_nil (w : World) : emit [] w = w.
Proof. destruct w; unfold emit; simpl. now rewrite app_nil_r. Qed.

Lemma emit_emit (a b : list Event) (w : World) :
  emit b (emit a w) = emit (a ++ b) w.
Proof. unfold emit; simpl. now rewrite app_assoc. Qed.

Lemma bind_return {A B} (m : M A) (k : A -> M B) (w w' : World) (a : A) :
  m w = (Return a, w') -> bind m k w = k a w'.
Proof. unfold bind. now intros ->. Qed.

Lemma for_each_log {A} (f : A -> Event) (l : list A) (w : World) :
  for_each (fun a => log (f a)) l w = (Return tt, emit (map f l) w).
Proof.
  revert w. induction l as [|a l IH]; intros w; simpl.
  - unfold ret. now rewrite emit_nil.
  - unfold bind, log at 1. rewrite IH, emit_emit. reflexivity.
Qed.

Lemma for_each_add_result (rid : nat) (rows : list Row) (w : World) :
  for_each (add_result rid) rows w
  = (Return tt,
     mkWorld (experiments w) (add_rows rid rows (runs w)) (db_location w)
             (trace w ++ map CallAddResult rows) (stdout w)).
Proof.
  revert w. induction rows as [|row rows IH]; intros w; simpl.
  - unfold ret. destruct w; simpl. now rewrite app_nil_r.
  - unfold bind at 1, add_result at 1, bind, log. rewrite IH. simpl.
    now rewrite <- app_assoc.
Qed.

Lemma add_rows_last (rid k : nat) (ps : list string) (rows acc : list Row)
    (old : list DataSet) :
  add_rows rid rows (old ++ [mkDataSet rid k ps acc])
  = add_rows rid rows old ++ [mkDataSet rid k ps (acc ++ rows)].
Proof.
  revert old acc. induction rows as [|row rows IH]; intros old acc; simpl.
  - now rewrite app_nil_r.
  - rewrite map_app. simpl. unfold append_row at 2. simpl.
    rewrite Nat.eqb_refl, IH, <- app_assoc. reflexivity.
Qed.

Lemma add_rows_length (rid : nat) (rows : list Row) (rs : list DataSet) :
  length (add_rows rid rows rs) = length rs.
Proof.
  revert rs. induction rows as [|row rows IH]; intros rs; simpl; [reflexivity|].
  now rewrite IH, length_map.
Qed.

Lemma find_app_last {A} (p : A -> bool) (l : list A) (x : A) :
  p x = true -> exists y, find p (l ++ [x]) = Some y /\ p y = true.
Proof.
  intros Hx. induction l as [|a l IH]; simpl.
  - rewrite Hx. eauto.
  - destruct (p a) eqn:Ea; eauto.
Qed.

Lemma find_row_in (k : nat) (w : World) (r : ExperimentRow) :
  In r (experiments w) -> row_exp_id r = k ->
  exists r', find_row k w = Some r'.
Proof.
  unfold find_row. intros Hin Hk.
  destruct (find (fun r0 => Nat.eqb (row_exp_id r0) k) (experiments w)) eqn:E.
  - eauto.
  - exfalso. apply (find_none _ _ E) in Hin. simpl in Hin.
    rewrite Hk, Nat.eqb_refl in Hin. discriminate.
Qed.

Lemma exp_build_measurement e setup sweep cleanup axes :
  exp (build_measurement e setup sweep cleanup axes) = e.
Proof.
  unfold build_measurement.
  assert (Ha : forall l m, exp (fold_left (fun m cb => add_after_run cb m) l m) = exp m).
  { induction l; intros; simpl; [reflexivity|]. now rewrite IHl. }
  assert (Hb : forall l m, exp (fold_left (fun m cb => add_before_run cb m) l m) = exp m).
  { induction l; intros; simpl; [reflexivity|]. now rewrite IHl. }
  assert (Hs : forall (l : list (string * list string)) m,
             exp (fold_left (fun m axis => add_subscriber (fst axis) m) l m) = exp m).
  { induction l; intros; simpl; [reflexivity|]. now rewrite IHl. }
  rewrite Ha. simpl. rewrite Hb.
  destruct axes; [apply Hs|reflexivity].
Qed.

Lemma list_max_in (l : list nat) : l <> [] -> In (list_max l) l.
Proof.
  induction l as [|a l IH]; [congruence|]. intros _.
  destruct l as [|b l].
  - left. simpl. lia.
  - change (list_max (a :: b :: l)) with (Nat.max a (list_max (b :: l))).
    destruct (Nat.max_spec a (list_max (b :: l))) as [[_ ->] | [_ ->]].
    + right. apply IH. discriminate.
    + now left.
Qed.

(** The experiment that gets the run is in the table as soon as the
    measurement's experiment is. *)
Lemma run_target_row (e : Experiment) (w : World) (r : ExperimentRow) :
  find_row (exp_id e) w = Some r ->
  exists r', find_row (run_target e w) w = Some r'.
Proof.
  intros Hr. unfold run_target.
  destruct (filter (fun d => Nat.eqb (run_exp_id d) (exp_id e)) (runs w));
    [|eauto].
  unfold find_row in Hr. apply find_some in Hr as [Hin _].
  assert (Hne : map row_exp_id (experiments w) <> []).
  { destruct (experiments w); [destruct Hin|discriminate]. }
  apply list_max_in in Hne. apply in_map_iff in Hne as (r' & Hid & Hin').
  exact (find_row_in _ _ r' Hin' Hid).
Qed.

Lemma run_context (m : Measurement) (rows : list Row) (w : World)
    (r : ExperimentRow) {A} (k : nat -> M A) :
  find_row (run_target (exp m) w) w = Some r ->
  (datasaver <- enter_run m ;;
   for_each (add_result datasaver) rows ;;;
   exit_run m ;;;
   k datasaver) w
  = k (S (length (runs w))) (world_after_run m rows w).
Proof.
  intros Hr. unfold enter_run, exit_run.
  unfold bind at 1 2 3. rewrite for_each_log.
  unfold log at 1.
  change (run_target (exp m)
            (emit [CallCreateRun (exp m)] (emit (map CallBeforeRun (before_run m)) w)))
    with (run_target (exp m) w).
  change (find_row (run_target (exp m) w)
            (emit [CallCreateRun (exp m)] (emit (map CallBeforeRun (before_run m)) w)))
    with (find_row (run_target (exp m) w) w).
  rewrite Hr.
  change (experiments
            (emit [CallCreateRun (exp m)] (emit (map CallBeforeRun (before_run m)) w)))
    with (experiments w).
  destruct (experiments w) as [|r0 rows0] eqn:Erows.
  { unfold find_row in Hr. rewrite Erows in Hr. discriminate. }
  unfold bind at 1. rewrite for_each_add_result.
  unfold bind. rewrite for_each_log.
  unfold world_after_run, emit. simpl. rewrite Erows.
  repeat rewrite <- app_assoc. reflexivity.
Qed.

(** [resolve_experiment] when exactly one experiment matches, and when
    none or several do. *)
Lemma resolve_experiment_found (name sample : string) (w : World)
    (r : ExperimentRow) :
  lookup name sample w = [r] ->
  resolve_experiment name sample w
  = (Return (mkExperiment (row_exp_id r) (Some (row_exp_id r))),
     emit [CallLoadExperimentByName name sample] w).
Proof.
  intros Hl. unfold resolve_experiment, try_except_ValueError, bind,
    load_experiment_by_name, bind, log.
  unfold lookup in *. simpl. rewrite Hl. reflexivity.
Qed.

Lemma resolve_experiment_created (name sample : string) (w : World) :
  length (lookup name sample w) <> 1 ->
  resolve_experiment name sample w
  = (Return (mkExperiment (fresh_exp_id w) None),
     mkWorld (experiments w ++ [mkExperimentRow (fresh_exp_id w) name sample 0])
             (runs w) (db_location w)
             (trace w ++ [CallLoadExperimentByName name sample;
                          CallDataSet (db_location w);
                          CallNewExperiment name sample])
             (stdout w)).
Proof.
  intros Hl. unfold resolve_experiment, try_except_ValueError, bind,
    load_experiment_by_name, bind, log.
  unfold lookup in *. simpl.
  destruct (filter (matches name sample) (experiments w)) as [|r [|r' rest]];
    [| simpl in Hl; congruence |];
    unfold config_db_location, DataSet_init, new_experiment, bind, log,
      emit, fresh_exp_id; simpl;
    repeat rewrite <- app_assoc; reflexivity.
Qed.

Lemma resolve_experiment_returns (name sample : string) (w : World) :
  exists e w1 r,
    resolve_experiment name sample w = (Return e, w1)
    /\ find_row (exp_id e) w1 = Some r
    /\ runs w1 = runs w /\ stdout w1 = stdout w.
Proof.
  destruct (lookup name sample w) as [|r [|r' rest]] eqn:El.
  - pose proof (resolve_experiment_created name sample w) as H.
    rewrite El in H. specialize (H ltac:(simpl; lia)).
    destruct (find_row_in (fresh_exp_id w)
                (mkWorld (experiments w ++ [mkExperimentRow (fresh_exp_id w) name sample 0])
                         (runs w) (db_location w)
                         (trace w ++ [CallLoadExperimentByName name sample;
                                      CallDataSet (db_location w);
                                      CallNewExperiment name sample])
                         (stdout w))
                (mkExperimentRow (fresh_exp_id w) name sample 0)) as [r Hr].
    { simpl. apply in_or_app. right. now left. }
    { reflexivity. }
    eexists _, _, r. split; [exact H|]. split; [exact Hr|]. split; reflexivity.
  - pose proof (resolve_experiment_found name sample w r El) as H.
    destruct (find_row_in (row_exp_id r)
                (emit [CallLoadExperimentByName name sample] w) r) as [r0 Hr].
    { simpl. unfold lookup in El.
      assert (Hin : In r (filter (matches name sample) (experiments w))).
      { rewrite El. now left. }
      now apply filter_In in Hin. }
    { reflexivity. }
    eexists _, _, r0. split; [exact H|]. split; [exact Hr|]. split; reflexivity.
  - pose proof (resolve_experiment_created name sample w) as H.
    rewrite El in H. specialize (H ltac:(simpl; lia)).
    destruct (find_row_in (fresh_exp_id w)
                (mkWorld (experiments w ++ [mkExperimentRow (fresh_exp_id w) name sample 0])
                         (runs w) (db_location w)
                         (trace w ++ [CallLoadExperimentByName name sample;
                                      CallDataSet (db_location w);
                                      CallNewExperiment name sample])
                         (stdout w))
                (mkExperimentRow (fresh_exp_id w) name sample 0)) as [r0 Hr].
    { simpl. apply in_or_app. right. now left. }
    { reflexivity. }
    eexists _, _, r0. split; [exact H|]. split; [exact Hr|]. split; reflexivity.
Qed.

(** What [run_measurement] does in a store that knows the experiment:
    the counter is the one stored before the run, the run id is the next
    free one, and the outcome is the selection from the results. *)
Lemma run_measurement_spec (base_path : string) (e : Experiment)
    (setup : list Callback) (sweep : Sweep) (cleanup : list Callback)
    (axes : option (list (string * list string)))
    (w : World) (r : ExperimentRow) :
  find_row (exp_id e) w = Some r ->
  let m := build_measurement e setup sweep cleanup axes in
  let path := (base_path ++ "/" ++ PyStr.str (run_counter r))%string in
  let w_run := world_after_run m (sweep_rows sweep) (emit [ReadLastCounter e] w) in
  exists old,
    runs w_run
    = old ++ [mkDataSet (S (length (runs w))) (run_target e w) (registered m)
                        (sweep_rows sweep)]
    /\ length old = length (runs w)
    /\ exists d, forall fmt,
      run_measurement base_path e setup sweep cleanup axes fmt w
      = (select (results_lookup path (S (length (runs w))) d e m) fmt,
         printed ("Completed measurement. Database path: " ++ path) w_run).
Proof.
  intros Hr m path w_run.
  assert (Hruns : runs w_run
                  = add_rows (S (length (runs w))) (sweep_rows sweep) (runs w)
                    ++ [mkDataSet (S (length (runs w))) (run_target e w)
                                  (registered m) (sweep_rows sweep)]).
  { subst w_run. unfold world_after_run. simpl.
    rewrite add_rows_last. subst m. rewrite exp_build_measurement. reflexivity. }
  exists (add_rows (S (length (runs w))) (sweep_rows sweep) (runs w)).
  split; [exact Hruns|]. split; [apply add_rows_length|].
  destruct (find_app_last (fun d => Nat.eqb (run_id d) (S (length (runs w))))
              (add_rows (S (length (runs w))) (sweep_rows sweep) (runs w))
              (mkDataSet (S (length (runs w))) (run_target e w) (registered m)
                         (sweep_rows sweep))) as (d & Hd & _).
  { simpl. apply Nat.eqb_refl. }
  exists d. intros fmt.
  destruct (run_target_row e w r Hr) as [r' Hr'].
  unfold run_measurement.
  unfold bind at 1. unfold last_counter, bind at 1, log. simpl.
  unfold find_row in Hr |- *. simpl. rewrite Hr.
  fold m.
  rewrite (run_context m (sweep_rows sweep) (emit [ReadLastCounter e] w) r').
  - fold w_run. unfold bind at 1, dataset_of. simpl length.
    rewrite Hruns, Hd. unfold bind, print, lift. fold path. reflexivity.
  - subst m. rewrite exp_build_measurement. exact Hr'.
Qed.

Lemma do_experiment_spec (base_path : string) (setup : list Callback)
    (sweep : Sweep) (cleanup : list Callback)
    (axes : option (list (string * list string))) (w : World) :
  exists e w1 r old d,
    resolve_experiment (fst (parse_base_path base_path))
                       (snd (parse_base_path base_path)) w = (Return e, w1)
    /\ find_row (exp_id e) w1 = Some r
    /\ runs w1 = runs w
    /\ length old = length (runs w)
    /\ let m := build_measurement e setup sweep cleanup axes in
       let path := (base_path ++ "/" ++ PyStr.str (run_counter r))%string in
       let w_run :=
         world_after_run m (sweep_rows sweep) (emit [ReadLastCounter e] w1) in
       runs w_run
       = old ++ [mkDataSet (S (length (runs w))) (run_target e w1) (registered m)
                           (sweep_rows sweep)]
       /\ forall fmt,
           do_experiment base_path setup sweep cleanup axes fmt w
           = (select (results_lookup path (S (length (runs w))) d e m)
                     (default_format fmt),
              printed ("Completed measurement. Database path: " ++ path) w_run).
Proof.
  destruct (resolve_experiment_returns (fst (parse_base_path base_path))
              (snd (parse_base_path base_path)) w)
    as (e & w1 & r & Hres & Hr & Hruns & _).
  destruct (run_measurement_spec base_path e setup sweep cleanup axes w1 r Hr)
    as (old & Hold & Hlen & d & Hrun).
  rewrite Hruns in Hold, Hlen, Hrun.
  exists e, w1, r, old, d.
  split; [exact Hres|]. split; [exact Hr|]. split; [exact Hruns|].
  split; [exact Hlen|]. split; [exact Hold|].
  intros fmt. unfold do_experiment.
  destruct (parse_base_path base_path) as [name sample]. simpl in Hres.
  rewrite (bind_return _ _ _ _ _ Hres). apply Hrun.
Qed.

Lemma find_row_bumped (k t : nat) (rows : list ExperimentRow) (r : ExperimentRow) :
  find (fun r0 => Nat.eqb (row_exp_id r0) k) rows = Some r ->
  find (fun r0 => Nat.eqb (row_exp_id r0) k) (map (bump_counter t) rows)
  = Some (bump_counter t r).
Proof.
  induction rows as [|a rows IH]; simpl; [discriminate|].
  assert (Hid : row_exp_id (bump_counter t a) = row_exp_id a).
  { unfold bump_counter. now destruct (Nat.eqb (row_exp_id a) t). }
  rewrite Hid.
  destruct (Nat.eqb (row_exp_id a) k) eqn:E.
  - now intros [= ->].
  - exact IH.
Qed.

Lemma string_of_uint_digits (d : Decimal.uint) :
  PyStr.all_digits (NilEmpty.string_of_uint d) = true.
Proof. induction d; simpl; auto. Qed.

(** [str] writes the decimal numeral: digits only, no leading zero, and
    [int] reads the number back. *)
Lemma str_decimal (n : nat) :
  PyStr.int (PyStr.str n) = Some (Z.of_nat n)
  /\ PyStr.all_digits (PyStr.str n) = true
  /\ (PyStr.str n = "0"
      \/ exists c rest, PyStr.str n = String c rest /\ c <> "0"%char).
Proof.
  split; [apply int_str|].
  unfold PyStr.str.
  assert (Hnorm : Nat.to_uint n = Decimal.unorm (Nat.to_uint n)).
  { rewrite <- (DecimalNat.Unsigned.to_of (Nat.to_uint n)).
    now rewrite DecimalNat.Unsigned.of_to. }
  split.
  - unfold NilZero.string_of_uint.
    destruct (Nat.to_uint n); try reflexivity; apply string_of_uint_digits.
  - rewrite Hnorm. unfold Decimal.unorm.
    pose proof (DecimalFacts.nzhead_nonzero (Nat.to_uint n)) as Hnz.
    destruct (Decimal.nzhead (Nat.to_uint n)) as [|d|d|d|d|d|d|d|d|d|d];
      [now left | exfalso; now apply (Hnz d) | ..];
      right; simpl; eexists _, _; (split; [reflexivity|discriminate]).
Qed.

(** C5: on normal completion the locator reported by [do_experiment]
    (returned and printed) is the base path, a slash, and the decimal
    numeral of the run counter the resolved experiment had in the store
    after it was resolved and before the run.  The run id returned under
    [dataid] is the store-wide number of the run, and the counter read
    after the run is one more when the run went to the resolved
    experiment. *)
Theorem locator_uses_counter_before_run (base_path : string)
    (setup : list Callback) (sweep : Sweep) (cleanup : list Callback)
    (axes : option (list (string * list string))) (w : World) :
  exists e w1 counter,
    resolve_experiment (fst (parse_base_path base_path))
                       (snd (parse_base_path base_path)) w = (Return e, w1)
    /\ fst (last_counter e w1) = Return counter
    /\ let locator := (base_path ++ "/" ++ PyStr.str counter)%string in
       let w' := snd (do_experiment base_path setup sweep cleanup axes None w) in
       fst (do_experiment base_path setup sweep cleanup axes None w)
       = Return [PathItem locator]
       /\ fst (do_experiment base_path setup sweep cleanup axes
                             (Some ["data_set_path"]) w)
          = Return [PathItem locator]
       /\ stdout w'
          = stdout w ++ [("Completed measurement. Database path: " ++ locator)%string]
       /\ fst (last_counter e w')
          = Return (if Nat.eqb (exp_id e) (run_target e w1)
                    then S counter else counter)
       /\ fst (do_experiment base_path setup sweep cleanup axes (Some ["dataid"]) w)
          = Return [DataIdItem (S (length (runs w)))]
       /\ PyStr.int (PyStr.str counter) = Some (Z.of_nat counter)
       /\ PyStr.all_digits (PyStr.str counter) = true
       /\ (PyStr.str counter = "0"
           \/ exists c rest,
                PyStr.str counter = String c rest /\ c <> "0"%char).
Proof.
  destruct (do_experiment_spec base_path setup sweep cleanup axes w)
    as (e & w1 & r & old & d & Hres & Hr & Hruns & Hlen & Hold & Hdo).
  exists e, w1, (run_counter r).
  split; [exact Hres|]. split.
  { unfold last_counter, bind, log. unfold find_row in *. simpl. now rewrite Hr. }
  cbv zeta. rewrite !Hdo. simpl fst. simpl snd.
  split; [reflexivity|]. split; [reflexivity|]. split.
  { simpl. destruct (resolve_experiment_returns (fst (parse_base_path base_path))
              (snd (parse_base_path base_path)) w)
      as (e' & w1' & r' & Hres' & _ & _ & Hout).
    rewrite Hres in Hres'. injection Hres' as _ <-. now rewrite Hout. }
  split.
  { unfold last_counter, bind, log, find_row. simpl.
    rewrite exp_build_measurement.
    unfold find_row in Hr.
    change (run_target e (emit [ReadLastCounter e] w1)) with (run_target e w1).
    rewrite (find_row_bumped _ _ _ _ Hr). simpl fst.
    apply find_some in Hr as [_ Hid]. apply Nat.eqb_eq in Hid.
    unfold bump_counter. rewrite Hid.
    now destruct (Nat.eqb (exp_id e) (run_target e w1)). }
  split; [reflexivity|]. apply str_decimal.
Qed.

(** The run counter and the run id are different numbers: a second
    experiment starts at counter 0 while its run is the second of the
    store. *)
Lemma locator_uses_counter_before_run_example :
  let w := world_after_example in
  fst (do_experiment "other/sample" no_callback example_sweep no_callback None
                     (Some ["data_set_path"; "dataid"]) w)
  = Return [PathItem "other/sample/0"; DataIdItem 2].
Proof. vm_compute. reflexivity. Qed.

(** ** Selecting the results *)

Lemma results_lookup_unknown path rid d e m (k : string) :
  is_result_key k = false -> results_lookup path rid d e m k = Raise (KeyError k).
Proof.
  unfold is_result_key, results_lookup. simpl.
  destruct (String.eqb k "data_set_path"); [discriminate|].
  destruct (String.eqb k "dataid"); [discriminate|].
  destruct (String.eqb k "dataset"); [discriminate|].
  destruct (String.eqb k "experiment"); [discriminate|].
  destruct (String.eqb k "measurement"); [discriminate|reflexivity].
Qed.

Lemma results_lookup_known path rid d e m (k : string) :
  is_result_key k = true ->
  exists item, results_lookup path rid d e m k = Return item.
Proof.
  unfold is_result_key, results_lookup. simpl.
  destruct (String.eqb k "data_set_path"); [eauto|].
  destruct (String.eqb k "dataid"); [eauto|].
  destruct (String.eqb k "dataset"); [eauto|].
  destruct (String.eqb k "experiment"); [eauto|].
  destruct (String.eqb k "measurement"); [eauto|discriminate].
Qed.

Lemma select_unknown path rid d e m (fmt : list string) :
  (exists k, In k fmt /\ is_result_key k = false) ->
  exists k, In k fmt /\ is_result_key k = false
            /\ select (results_lookup path rid d e m) fmt = Raise (KeyError k).
Proof.
  induction fmt as [|a fmt IH]; intros (k & Hin & Hk); [destruct Hin|].
  destruct (is_result_key a) eqn:Ea.
  - destruct (results_lookup_known path rid d e m a Ea) as [item Hitem].
    destruct IH as (k' & Hin' & Hk' & Hsel).
    { destruct Hin as [<- | Hin]; [congruence|eauto]. }
    exists k'. split; [now right|]. split; [exact Hk'|].
    simpl. now rewrite Hitem, Hsel.
  - exists a. split; [now left|]. split; [exact Ea|].
    simpl. now rewrite (results_lookup_unknown path rid d e m a Ea).
Qed.

(** C9: a name in [return_format] that is not a key of the results makes
    [do_experiment] raise [KeyError] for it, with nothing returned, in
    exactly the world a successful call leaves: the run has been
    created, every row of the sweep added to it, and the completion
    message printed. *)
Theorem unknown_return_name_raises_after_run (base_path : string)
    (setup : list Callback) (sweep : Sweep) (cleanup : list Callback)
    (axes : option (list (string * list string))) (fmt : list string)
    (w : World) :
  (exists k, In k fmt /\ is_result_key k = false) ->
  let outcome := do_experiment base_path setup sweep cleanup axes (Some fmt) w in
  let normal := do_experiment base_path setup sweep cleanup axes None w in
  exists k old d,
    In k fmt /\ is_result_key k = false
    /\ fst outcome = Raise (KeyError k)
    /\ snd outcome = snd normal
    /\ (exists items, fst normal = Return items)
    /\ runs (snd outcome) = old ++ [d]
    /\ length old = length (runs w)
    /\ run_id d = S (length (runs w))
    /\ results d = sweep_rows sweep
    /\ (exists before after,
          trace (snd outcome)
          = before ++ map CallAddResult (sweep_rows sweep) ++ after)
    /\ length (stdout (snd outcome)) = S (length (stdout w)).
Proof.
  intros Hbad outcome normal.
  destruct (do_experiment_spec base_path setup sweep cleanup axes w)
    as (e & w1 & r & old & d & Hres & Hr & Hruns & Hlen & Hold & Hdo).
  cbv zeta in Hold, Hdo.
  destruct (select_unknown
              (base_path ++ "/" ++ PyStr.str (run_counter r))%string
              (S (length (runs w))) d e
              (build_measurement e setup sweep cleanup axes) fmt Hbad)
    as (k & Hin & Hk & Hsel).
  exists k, old, (mkDataSet (S (length (runs w))) (run_target e w1)
                   (registered (build_measurement e setup sweep cleanup axes))
                   (sweep_rows sweep)).
  subst outcome normal. rewrite !Hdo. simpl fst. simpl snd.
  split; [exact Hin|]. split; [exact Hk|]. split; [exact Hsel|].
  split; [reflexivity|]. split; [eexists; reflexivity|].
  split; [exact Hold|]. split; [exact Hlen|].
  split; [reflexivity|]. split; [reflexivity|]. split.
  - set (m := build_measurement e setup sweep cleanup axes).
    exists ((trace w1 ++ [ReadLastCounter e])
            ++ map CallBeforeRun (before_run m) ++ [CallCreateRun (exp m)]),
           (map CallAfterRun (after_run m)).
    simpl. repeat rewrite <- app_assoc. reflexivity.
  - simpl. rewrite length_app. simpl.
    destruct (resolve_experiment_returns (fst (parse_base_path base_path))
                (snd (parse_base_path base_path)) w)
      as (e' & w1' & r' & Hres' & _ & _ & Hout).
    rewrite Hres in Hres'. injection Hres' as _ <-. rewrite Hout. lia.
Qed.

Lemma unknown_return_name_raises_after_run_witness :
  exists k,
    fst (do_experiment "cool_experiment/my_sample" no_callback example_sweep
                       no_callback None (Some ["data_set_path"; "path"])
                       empty_world)
    = Raise (KeyError k).
Proof.
  destruct (unknown_return_name_raises_after_run "cool_experiment/my_sample"
              no_callback example_sweep no_callback None
              ["data_set_path"; "path"] empty_world)
    as (k & old & d & _ & _ & Hk & _).
  - exists "path". split; [right; left; reflexivity | reflexivity].
  - exists k. exact Hk.
Defined.

(** ** Fetching a run *)

Lemma fetch_run_not_single (name sample : string) (n : Z) (as_dict flatten : bool)
    (w : World) :
  length (lookup name sample w) <> 1 ->
  fetch_run name n sample as_dict flatten w
  = (Raise (ValueError not_unique_message),
     emit [CallLoadExperimentByName name sample] w).
Proof.
  intros Hl. unfold fetch_run, bind, try_except_ValueError,
    load_experiment_by_name, bind, log, raise.
  unfold lookup in *. simpl.
  destruct (filter (matches name sample) (experiments w)) as [|r [|r' rest]];
    [reflexivity | simpl in Hl; congruence | reflexivity].
Qed.

Lemma fetch_run_single (name sample : string) (n : Z) (as_dict flatten : bool)
    (w : World) (r : ExperimentRow) :
  lookup name sample w = [r] ->
  fetch_run name n sample as_dict flatten w
  = (match py_index (runs_of (row_exp_id r) w) n with
     | None => Raise (IndexError "list index out of range")
     | Some d => Return (fetched as_dict flatten d)
     end,
     emit [CallLoadExperimentByName name sample;
           CallDataSets (mkExperiment (row_exp_id r) None)] w).
Proof.
  intros Hl. unfold fetch_run, bind, try_except_ValueError,
    load_experiment_by_name, bind, log, data_sets, bind, log, raise, ret.
  unfold lookup in *. simpl. rewrite Hl. simpl.
  unfold runs_of, fetched, emit. simpl. rewrite <- app_assoc. simpl.
  destruct (py_index _ n); [destruct as_dict|]; reflexivity.
Qed.

Lemma get_results_decoded (db_path name sample : string) (n : Z)
    (as_dict flatten : bool) :
  decode_db_path db_path = Return (name, n, sample) ->
  get_results_from_db_path db_path as_dict flatten
  = fetch_run name n sample as_dict flatten.
Proof.
  intros Hd. unfold get_results_from_db_path, bind, lift. now rewrite Hd.
Qed.

Lemma py_index_none {A} (l : list A) (n : Z) :
  py_index l n = None
  <-> (Z.of_nat (length l) <= n \/ n < - Z.of_nat (length l))%Z.
Proof.
  unfold py_index.
  destruct (Z.leb_spec 0 n) as [Hn | Hn].
  - rewrite nth_error_None. lia.
  - destruct (Z.leb_spec (- Z.of_nat (length l)) n) as [Hm | Hm].
    + rewrite nth_error_None. lia.
    + split; [lia|reflexivity].
Qed.

(** The lookup finds nothing exactly when no record has the experiment
    name or, the sample name not being empty, every record of that
    experiment name has another sample name. *)
Lemma lookup_nothing (name sample : string) (w : World) :
  lookup name sample w = []
  <-> forall r, In r (experiments w) -> row_name r = name ->
                sample <> EmptyString /\ row_sample_name r <> sample.
Proof.
  unfold lookup. split.
  - intros Hl r Hin Hname.
    assert (Hm : matches name sample r = false).
    { destruct (matches name sample r) eqn:Em; [|reflexivity].
      assert (Hr : In r (filter (matches name sample) (experiments w)))
        by (apply filter_In; auto).
      rewrite Hl in Hr. destruct Hr. }
    unfold matches in Hm. apply String.eqb_eq in Hname. rewrite Hname in Hm.
    destruct sample as [|c rest]; [discriminate|].
    split; [discriminate|]. simpl in Hm. now apply String.eqb_neq in Hm.
  - intros H.
    destruct (filter (matches name sample) (experiments w)) as [|r rest] eqn:El;
      [reflexivity|].
    assert (Hr : In r (filter (matches name sample) (experiments w)))
      by (rewrite El; now left).
    apply filter_In in Hr as [Hin Hm]. unfold matches in Hm.
    apply andb_true_iff in Hm as [Hname Hs]. apply String.eqb_eq in Hname.
    destruct (H r Hin Hname) as [Hne Hother].
    destruct sample as [|c rest']; [congruence|].
    apply String.eqb_eq in Hs. congruence.
Qed.

(** C8, as the code has it: when the lookup of the decoded names finds
    no experiment, retrieval raises the [ValueError] that says the
    combination is not unique, the same outcome it has in any store
    where several experiments match.  The lookup finds nothing when no
    record has the decoded experiment name, or when the decoded sample
    name is not empty and every record of that experiment name has
    another sample name: an empty sample name is looked up by the
    experiment name alone. *)
Theorem missing_experiment_reported_as_not_unique (db_path name sample : string)
    (n : Z) (as_dict flatten : bool) (w : World) :
  decode_db_path db_path = Return (name, n, sample) ->
  (forall r, In r (experiments w) -> row_name r = name ->
             sample <> EmptyString /\ row_sample_name r <> sample) ->
  lookup name sample w = []
  /\ get_results_from_db_path db_path as_dict flatten w
     = (Raise (ValueError not_unique_message),
        emit [CallLoadExperimentByName name sample] w)
  /\ forall w2 r1 r2 rest,
       lookup name sample w2 = r1 :: r2 :: rest ->
       fst (get_results_from_db_path db_path as_dict flatten w2)
       = fst (get_results_from_db_path db_path as_dict flatten w).
Proof.
  intros Hd Hrows. apply lookup_nothing in Hrows as Hl.
  split; [exact Hl|].
  rewrite (get_results_decoded _ _ _ _ _ _ Hd).
  assert (H0 : fetch_run name n sample as_dict flatten w
               = (Raise (ValueError not_unique_message),
                  emit [CallLoadExperimentByName name sample] w)).
  { rewrite fetch_run_not_single; [reflexivity|]. rewrite Hl. discriminate. }
  split; [exact H0|].
  intros w2 r1 r2 rest Hl2. rewrite H0.
  rewrite fetch_run_not_single; [reflexivity|]. rewrite Hl2. discriminate.
Qed.

Lemma missing_experiment_reported_as_not_unique_witness :
  fst (get_results_from_db_path "cool_experiment/other_sample/0" false false
                                world_after_example)
  = Raise (ValueError not_unique_message).
Proof.
  refine (f_equal fst
            (proj1 (proj2 (missing_experiment_reported_as_not_unique
                             "cool_experiment/other_sample/0" "cool_experiment"
                             "other_sample" 0%Z false false world_after_example
                             eq_refl _)))).
  intros r [<- | []] _. split; discriminate.
Defined.

(** C8 as stated fails for a path without sample name.  In the store
    left by [do_experiment] on the base path [cool_experiment], whose
    only record has the sample name [None], no record has the names
    decoded from the locator [cool_experiment/0] that the call
    returned, the sample name being the empty string; yet the lookup
    finds the record by its experiment name and the run is returned. *)
Lemma nameless_lookup_counterexample :
  let call := do_experiment "cool_experiment" no_callback example_sweep
                            no_callback None None empty_world in
  let w := snd call in
  fst call = Return [PathItem "cool_experiment/0"]
  /\ decode_db_path "cool_experiment/0" = Return ("cool_experiment", 0%Z, EmptyString)
  /\ map (fun r => (row_name r, row_sample_name r)) (experiments w)
     = [("cool_experiment", "None")]
  /\ filter (same_identity "cool_experiment" EmptyString) (experiments w) = []
  /\ fst (get_results_from_db_path "cool_experiment/0" false false w)
     = Return (AsDataSet (mkDataSet 1 1 ["x"; "m"] (sweep_rows example_sweep)))
  /\ fst (get_results_from_db_path "cool_experiment/0" false false w)
     <> Raise (ValueError not_unique_message).
Proof.
  cbv zeta.
  assert (Hout : fst (get_results_from_db_path "cool_experiment/0" false false
                        (snd (do_experiment "cool_experiment" no_callback
                                example_sweep no_callback None None empty_world)))
                 = Return (AsDataSet (mkDataSet 1 1 ["x"; "m"]
                                                (sweep_rows example_sweep))))
    by (vm_compute; reflexivity).
  do 4 (split; [vm_compute; reflexivity|]).
  split; [exact Hout|]. rewrite Hout. discriminate.
Qed.

Lemma int_of_digit_first (c : ascii) (d : Z) (rest : string) :
  PyStr.digit_of c = Some d ->
  PyStr.int (String c rest) = PyStr.digits d false rest.
Proof.
  destruct c as [[] [] [] [] [] [] [] []]; intros H;
    try (vm_compute in H; discriminate H);
    vm_compute in H; injection H as <-; reflexivity.
Qed.

Lemma literal_tail_digits (zeros_only after_us : bool) (s : string) (acc : Z) :
  PyStr.literal_tail zeros_only after_us s = true ->
  exists v, PyStr.digits acc after_us s = Some v.
Proof.
  revert acc after_us. induction s as [|c rest IH]; intros acc after_us; simpl.
  - destruct after_us; [discriminate|eauto].
  - destruct (PyStr.digit_of c) as [d|].
    + destruct (zeros_only && negb (Z.eqb d 0)); [discriminate|]. apply IH.
    + destruct (Ascii.eqb c "_"%char) eqn:Eu; [|discriminate].
      destruct after_us; [discriminate|]. simpl. apply IH.
Qed.

(** Every decimal integer literal is accepted by [int]. *)
Lemma int_accepts_literals (s : string) :
  PyStr.is_decimal_literal s = true -> exists n, PyStr.int s = Some n.
Proof.
  destruct s as [|c rest]; [discriminate|]. simpl.
  destruct (PyStr.digit_of c) as [d|] eqn:Ed; [|discriminate].
  intros H. rewrite (int_of_digit_first c d rest Ed).
  exact (literal_tail_digits _ _ _ d H).
Qed.

(** When [int] accepts the last segment, the lookup is made. *)
Lemma accepted_run_number_reaches_lookup (db_path : string) (n : Z)
    (as_dict flatten : bool) (w : World) :
  PyStr.int (PyStr.final (PyStr.split PyStr.slash db_path)) = Some n ->
  exists rest,
    trace (snd (get_results_from_db_path db_path as_dict flatten w))
    = trace w
      ++ CallLoadExperimentByName
           (PyStr.first (PyStr.split PyStr.slash db_path))
           (PyStr.join "/" (PyStr.from_1_to_last (PyStr.split PyStr.slash db_path)))
      :: rest.
Proof.
  intros Hi.
  assert (Hd : decode_db_path db_path
               = Return (PyStr.first (PyStr.split PyStr.slash db_path), n,
                         PyStr.join "/" (PyStr.from_1_to_last
                                           (PyStr.split PyStr.slash db_path)))).
  { unfold decode_db_path. now rewrite Hi. }
  rewrite (get_results_decoded _ _ _ _ _ _ Hd).
  set (name := PyStr.first (PyStr.split PyStr.slash db_path)).
  set (sample := PyStr.join "/" (PyStr.from_1_to_last (PyStr.split PyStr.slash db_path))).
  destruct (Nat.eq_dec (length (lookup name sample w)) 1) as [H1 | H1].
  - destruct (lookup name sample w) as [|r [|r' rest]] eqn:El;
      try discriminate H1.
    rewrite (fetch_run_single _ _ _ _ _ _ _ El). simpl. eauto.
  - rewrite (fetch_run_not_single _ _ _ _ _ _ H1). simpl. eauto.
Qed.

(** C10, as the code has it: when the last segment of the path is an
    ASCII string that [int] rejects, retrieval raises the [ValueError]
    of the conversion and the world is untouched: no lookup and no run
    access has been made.  Such a segment is never a decimal integer
    literal; but [int] also accepts segments that are not literals
    (a sign, surrounding whitespace, leading zeros), and then the
    lookup is made. *)
Theorem bad_run_number_raises_before_lookup (db_path : string)
    (as_dict flatten : bool) (w : World) :
  PyStr.is_ascii (PyStr.final (PyStr.split PyStr.slash db_path)) = true ->
  PyStr.int (PyStr.final (PyStr.split PyStr.slash db_path)) = None ->
  get_results_from_db_path db_path as_dict flatten w
  = (Raise (ValueError
              (invalid_literal (PyStr.final (PyStr.split PyStr.slash db_path)))),
     w)
  /\ PyStr.is_decimal_literal (PyStr.final (PyStr.split PyStr.slash db_path))
     = false.
Proof.
  intros _ Hi. split.
  - unfold get_results_from_db_path, bind, lift, decode_db_path.
    now rewrite Hi.
  - destruct (PyStr.is_decimal_literal
                (PyStr.final (PyStr.split PyStr.slash db_path))) eqn:E;
      [|reflexivity].
    apply int_accepts_literals in E as [n Hn]. congruence.
Qed.

Lemma bad_run_number_raises_before_lookup_witness :
  get_results_from_db_path "cool_experiment/my_sample" false false world_after_example
  = (Raise (ValueError "invalid literal for int() with base 10: 'my_sample'"),
     world_after_example).
Proof.
  exact (proj1 (bad_run_number_raises_before_lookup "cool_experiment/my_sample"
                  false false world_after_example eq_refl eq_refl)).
Defined.

(** C10 as stated fails: the segment [+0] is not a decimal integer
    literal, yet [int] converts it, the lookup is made and the run is
    returned. *)
Lemma signed_run_number_counterexample :
  let db_path := "cool_experiment/my_sample/+0" in
  let w := world_after_example in
  PyStr.final (PyStr.split PyStr.slash db_path) = "+0"
  /\ PyStr.is_decimal_literal "+0" = false
  /\ fst (get_results_from_db_path db_path false false w)
     = Return (AsDataSet (mkDataSet 1 1 ["x"; "m"] (sweep_rows example_sweep)))
  /\ trace (snd (get_results_from_db_path db_path false false w))
     = trace w ++ [CallLoadExperimentByName "cool_experiment" "my_sample";
                   CallDataSets (mkExperiment 1 None)]
  /\ ~ (exists msg,
          get_results_from_db_path db_path false false w
          = (Raise (ValueError msg), w)).
Proof.
  cbv zeta.
  split; [vm_compute; reflexivity|]. split; [vm_compute; reflexivity|].
  assert (Hout : fst (get_results_from_db_path "cool_experiment/my_sample/+0"
                        false false world_after_example)
                 = Return (AsDataSet (mkDataSet 1 1 ["x"; "m"]
                                                (sweep_rows example_sweep))))
    by (vm_compute; reflexivity).
  split; [exact Hout|]. split; [vm_compute; reflexivity|].
  intros [msg H]. rewrite H in Hout. discriminate Hout.
Qed.

(** C6, as the code has it: once the experiment is found, retrieval
    raises [IndexError] exactly when the run number is at least the
    number of runs of the experiment or below its negation.  For a
    non-negative run number this is exactly when no run exists at that
    position; a negative one within range selects a run counted from
    the end. *)
Theorem run_index_out_of_range (db_path name sample : string) (n : Z)
    (as_dict flatten : bool) (w : World) (r : ExperimentRow) :
  decode_db_path db_path = Return (name, n, sample) ->
  lookup name sample w = [r] ->
  let all_runs := runs_of (row_exp_id r) w in
  let len := Z.of_nat (length all_runs) in
  let outcome := fst (get_results_from_db_path db_path as_dict flatten w) in
  (outcome = Raise (IndexError "list index out of range")
   <-> (len <= n \/ n < - len)%Z)
  /\ ((0 <= n)%Z ->
      (outcome = Raise (IndexError "list index out of range")
       <-> ~ position_exists all_runs n))
  /\ ((- len <= n < 0)%Z ->
      exists d, nth_error all_runs (Z.to_nat (len + n)) = Some d
                /\ outcome = Return (fetched as_dict flatten d)).
Proof.
  intros Hd Hl all_runs len outcome.
  assert (Hout : outcome = match py_index all_runs n with
                           | None => Raise (IndexError "list index out of range")
                           | Some d => Return (fetched as_dict flatten d)
                           end).
  { subst outcome. rewrite (get_results_decoded _ _ _ _ _ _ Hd).
    now rewrite (fetch_run_single _ _ _ _ _ _ _ Hl). }
  assert (Hiff : outcome = Raise (IndexError "list index out of range")
                 <-> (len <= n \/ n < - len)%Z).
  { rewrite Hout. subst len. rewrite <- py_index_none.
    destruct (py_index all_runs n); split; congruence. }
  split; [exact Hiff|]. split.
  - intros Hn. rewrite Hiff. unfold position_exists. fold len. lia.
  - intros Hn. rewrite Hout. unfold py_index. fold len.
    destruct (Z.leb_spec 0 n) as [|_]; [lia|].
    destruct (Z.leb_spec (- len) n) as [_|]; [|lia].
    destruct (nth_error all_runs (Z.to_nat (len + n))) as [d|] eqn:E.
    + now exists d.
    + apply nth_error_None in E. subst len. lia.
Qed.

Lemma run_index_out_of_range_witness :
  fst (get_results_from_db_path "cool_experiment/my_sample/1" false false
                                world_after_example)
  = Raise (IndexError "list index out of range").
Proof.
  apply (proj1 (run_index_out_of_range "cool_experiment/my_sample/1"
                  "cool_experiment" "my_sample" 1%Z false false
                  world_after_example
                  (mkExperimentRow 1 "cool_experiment" "my_sample" 1)
                  eq_refl eq_refl)).
  left. vm_compute. discriminate.
Defined.

(** C6 as stated fails: the run number [-1] names no position of the
    run list, yet retrieval returns the last run instead of raising. *)
Lemma run_index_negative_counterexample :
  let w := world_after_example in
  let outcome :=
    fst (get_results_from_db_path "cool_experiment/my_sample/-1" false false w) in
  decode_db_path "cool_experiment/my_sample/-1"
  = Return ("cool_experiment", (-1)%Z, "my_sample")
  /\ lookup "cool_experiment" "my_sample" w
     = [mkExperimentRow 1 "cool_experiment" "my_sample" 1]
  /\ ~ position_exists (runs_of 1 w) (-1)
  /\ outcome
     = Return (AsDataSet (mkDataSet 1 1 ["x"; "m"] (sweep_rows example_sweep)))
  /\ ~ (outcome = Raise (IndexError "list index out of range")
        <-> ~ position_exists (runs_of 1 w) (-1)).
Proof.
  cbv zeta.
  assert (Hpos : ~ position_exists (runs_of 1 world_after_example) (-1)).
  { unfold position_exists. lia. }
  assert (Hout : fst (get_results_from_db_path "cool_experiment/my_sample/-1"
                        false false world_after_example)
                 = Return (AsDataSet (mkDataSet 1 1 ["x"; "m"]
                                                (sweep_rows example_sweep)))).
  { vm_compute. reflexivity. }
  split; [vm_compute; reflexivity|]. split; [vm_compute; reflexivity|].
  split; [exact Hpos|]. split; [exact Hout|].
  rewrite Hout. intros [_ H]. specialize (H Hpos). discriminate.
Qed.

(** ** Ambiguous identities and the id attribute *)

(** A freshly created experiment is the last of the table, so it gets
    the run whether or not runs carry its id already. *)
Lemma run_target_created (w : World) (name sample : string) (i : option nat)
    (loc : string) (tr : list Event) (out : list string) :
  run_target (mkExperiment (fresh_exp_id w) i)
             (mkWorld (experiments w ++ [mkExperimentRow (fresh_exp_id w) name sample 0])
                      (runs w) loc tr out)
  = fresh_exp_id w.
Proof.
  unfold run_target. simpl.
  destruct (filter (fun d => Nat.eqb (run_exp_id d) (fresh_exp_id w)) (runs w));
    [|reflexivity].
  unfold last_exp_id. simpl. rewrite map_app, list_max_app. simpl.
  unfold fresh_exp_id. lia.
Qed.

Lemma do_experiment_creates (base_path name sample : string)
    (setup : list Callback) (sweep : Sweep) (cleanup : list Callback)
    (axes : option (list (string * list string))) (fmt : option (list string))
    (w : World) :
  parse_base_path base_path = (name, sample) ->
  length (lookup name sample w) <> 1 ->
  experiments (snd (do_experiment base_path setup sweep cleanup axes fmt w))
  = map (bump_counter (fresh_exp_id w))
        (experiments w ++ [mkExperimentRow (fresh_exp_id w) name sample 0]).
Proof.
  intros Hp Hl.
  destruct (do_experiment_spec base_path setup sweep cleanup axes w)
    as (e & w1 & r & old & d & Hres & _ & _ & _ & _ & Hdo).
  rewrite Hdo. rewrite Hp in Hres. simpl in Hres.
  rewrite resolve_experiment_created in Hres by assumption.
  injection Hres as <- <-. simpl. rewrite exp_build_measurement.
  unfold emit. simpl. now rewrite run_target_created.
Qed.

Lemma do_experiment_first_call (base_path name sample : string)
    (setup : list Callback) (sweep : Sweep) (cleanup : list Callback)
    (axes : option (list (string * list string))) (fmt : option (list string))
    (w : World) :
  parse_base_path base_path = (name, sample) ->
  exists rest,
    trace (snd (do_experiment base_path setup sweep cleanup axes fmt w))
    = trace w ++ CallLoadExperimentByName name sample :: rest.
Proof.
  intros Hp.
  destruct (do_experiment_spec base_path setup sweep cleanup axes w)
    as (e & w1 & r & old & d & Hres & _ & _ & _ & _ & Hdo).
  rewrite Hdo. rewrite Hp in Hres. simpl in Hres. simpl.
  assert (Hw1 : exists mid, trace w1
                            = trace w ++ CallLoadExperimentByName name sample :: mid).
  { destruct (Nat.eq_dec (length (lookup name sample w)) 1) as [H1 | H1].
    - destruct (lookup name sample w) as [|r1 [|r2 rest]] eqn:El;
        try discriminate H1.
      rewrite (resolve_experiment_found _ _ _ _ El) in Hres.
      injection Hres as _ <-. now exists [].
    - rewrite resolve_experiment_created in Hres by assumption.
      injection Hres as _ <-. simpl. eauto. }
  destruct Hw1 as [mid ->].
  repeat rewrite <- app_assoc. simpl. eauto.
Qed.

(** C1, at a store where two experiments share name and sample name:
    [get_results_from_db_path] raises the not-unique [ValueError], but
    [do_experiment] handles the lookup failure as a missing experiment,
    creates a third record and completes normally. *)
Theorem ambiguous_identity_behaviour :
  let w := ambiguous_world in
  let created :=
    do_experiment "expA/sampleA" no_callback example_sweep no_callback None None w in
  length (lookup "expA" "sampleA" w) = 2
  /\ fst (load_experiment_by_name "expA" "sampleA" w)
     = Raise (ValueError "Many experiments matching your request found")
  /\ fst (get_results_from_db_path "expA/sampleA/0" false false w)
     = Raise (ValueError not_unique_message)
  /\ fst created = Return [PathItem "expA/sampleA/0"]
  /\ experiments (snd created)
     = [mkExperimentRow 1 "expA" "sampleA" 0;
        mkExperimentRow 2 "expA" "sampleA" 0;
        mkExperimentRow 3 "expA" "sampleA" 1]
  /\ In (CallNewExperiment "expA" "sampleA") (trace (snd created))
  /\ fst (get_results_from_db_path "expA/sampleA/0" false false (snd created))
     = Raise (ValueError not_unique_message).
Proof.
  cbv zeta. repeat split; try (vm_compute; reflexivity).
  vm_compute. right. right. left. reflexivity.
Qed.

Lemma handles_used_app (a b : list Event) :
  handles_used (a ++ b) = handles_used a ++ handles_used b.
Proof. unfold handles_used. apply flat_map_app. Qed.

Lemma handles_used_cons (ev : Event) (l : list Event) :
  handles_used (ev :: l)
  = match handle_of ev with Some e => [e] | None => [] end ++ handles_used l.
Proof. reflexivity. Qed.

Lemma handles_used_callbacks (f : Callback -> Event) (l : list Callback) :
  (forall cb, handle_of (f cb) = None) -> handles_used (map f l) = [].
Proof.
  intros Hf. unfold handles_used.
  induction l as [|a l IH]; simpl; [reflexivity|]. now rewrite Hf, IH.
Qed.

Lemma handles_used_rows (l : list Row) : handles_used (map CallAddResult l) = [].
Proof. unfold handles_used. induction l as [|a l IH]; simpl; auto. Qed.

(** The handle [do_experiment] got from [resolve_experiment] is the one
    it hands to the framework, for the counter and for the run. *)
Lemma do_experiment_handles (base_path : string)
    (setup : list Callback) (sweep : Sweep) (cleanup : list Callback)
    (axes : option (list (string * list string))) (w : World) :
  exists e w1,
    resolve_experiment (fst (parse_base_path base_path))
                       (snd (parse_base_path base_path)) w = (Return e, w1)
    /\ fst (do_experiment base_path setup sweep cleanup axes
                          (Some ["experiment"]) w)
       = Return [ExperimentItem e]
    /\ forall fmt,
         handles_used
           (skipn (length (trace w))
              (trace (snd (do_experiment base_path setup sweep cleanup axes fmt w))))
         = [e; e].
Proof.
  destruct (do_experiment_spec base_path setup sweep cleanup axes w)
    as (e & w1 & r0 & old & d & Hres & _ & _ & _ & _ & Hdo).
  exists e, w1. split; [exact Hres|]. split; [rewrite Hdo; reflexivity|].
  intros fmt. rewrite Hdo. simpl.
  assert (Hw1 : exists mid, trace w1 = trace w ++ mid /\ handles_used mid = []).
  { set (name := fst (parse_base_path base_path)) in *.
    set (sample := snd (parse_base_path base_path)) in *.
    destruct (Nat.eq_dec (length (lookup name sample w)) 1) as [H1 | H1].
    - destruct (lookup name sample w) as [|r1 [|r2 rest]] eqn:El;
        try discriminate H1.
      rewrite (resolve_experiment_found _ _ _ _ El) in Hres.
      apply (f_equal snd) in Hres. simpl in Hres. rewrite <- Hres.
      eexists. split; reflexivity.
    - rewrite (resolve_experiment_created _ _ _ H1) in Hres.
      apply (f_equal snd) in Hres. simpl in Hres. rewrite <- Hres.
      eexists. split; reflexivity. }
  destruct Hw1 as (mid & -> & Hmid).
  rewrite exp_build_measurement.
  repeat rewrite <- app_assoc.
  rewrite skipn_app, skipn_all, Nat.sub_diag. simpl skipn. rewrite app_nil_l.
  rewrite handles_used_app, Hmid, handles_used_cons, handles_used_app.
  rewrite handles_used_callbacks by reflexivity.
  rewrite handles_used_cons, handles_used_app, handles_used_rows.
  rewrite handles_used_callbacks by reflexivity. reflexivity.
Qed.

Lemma fetch_run_handles_found (name sample : string) (n : Z)
    (as_dict flatten : bool) (w : World) (r : ExperimentRow) :
  lookup name sample w = [r] ->
  handles_used (skipn (length (trace w))
                  (trace (snd (fetch_run name n sample as_dict flatten w))))
  = [mkExperiment (row_exp_id r) None].
Proof.
  intros Hl. rewrite (fetch_run_single _ _ _ _ _ _ _ Hl). simpl.
  rewrite skipn_app, skipn_all, Nat.sub_diag. reflexivity.
Qed.

(** C2, as the code has it: [do_experiment] sets the [id] of a
    looked-up experiment from its [exp_id] before it reads the counter
    and runs the measurement, and returns it so; a freshly created
    experiment is used and returned as created, with no [id].
    [get_results_from_db_path] does not set it: the looked-up experiment
    is handed on as loaded, to list its data sets. *)
Theorem id_correction_in_do_experiment_only (base_path : string)
    (setup : list Callback) (sweep : Sweep) (cleanup : list Callback)
    (axes : option (list (string * list string))) (fmt : option (list string))
    (db_path : string) (as_dict flatten : bool) (w : World) :
  let name := fst (parse_base_path base_path) in
  let sample := snd (parse_base_path base_path) in
  let new_events (after : World) := skipn (length (trace w)) (trace after) in
  let used :=
    handles_used
      (new_events (snd (do_experiment base_path setup sweep cleanup axes fmt w))) in
  let returned :=
    fst (do_experiment base_path setup sweep cleanup axes (Some ["experiment"]) w) in
  (forall r, lookup name sample w = [r] ->
     let e := mkExperiment (row_exp_id r) (Some (row_exp_id r)) in
     used = [e; e] /\ returned = Return [ExperimentItem e])
  /\ (length (lookup name sample w) <> 1 ->
      let e := mkExperiment (fresh_exp_id w) None in
      used = [e; e] /\ returned = Return [ExperimentItem e])
  /\ (forall exp_name n sample_name r,
        decode_db_path db_path = Return (exp_name, n, sample_name) ->
        lookup exp_name sample_name w = [r] ->
        handles_used
          (new_events (snd (get_results_from_db_path db_path as_dict flatten w)))
        = [mkExperiment (row_exp_id r) None]).
Proof.
  intros name sample new_events used returned.
  destruct (do_experiment_handles base_path setup sweep cleanup axes w)
    as (e & w1 & Hres & Hret & Hused).
  fold name sample in Hres. fold returned in Hret.
  specialize (Hused fmt). fold (new_events (snd (do_experiment base_path setup
    sweep cleanup axes fmt w))) in Hused. fold used in Hused.
  split; [|split].
  - intros r Hl. rewrite (resolve_experiment_found _ _ _ _ Hl) in Hres.
    apply (f_equal fst) in Hres. simpl in Hres. injection Hres as <-.
    split; assumption.
  - intros H1. rewrite (resolve_experiment_created _ _ _ H1) in Hres.
    apply (f_equal fst) in Hres. simpl in Hres. injection Hres as <-.
    split; assumption.
  - intros exp_name n sample_name r Hd Hl. subst new_events. cbv beta.
    rewrite (get_results_decoded _ _ _ _ _ _ Hd).
    exact (fetch_run_handles_found _ _ _ _ _ _ _ Hl).
Qed.

(** C2 as stated fails: at the store left by the example script the
    lookup of [get_results_from_db_path] succeeds, and the experiment it
    then uses has no [id]. *)
Lemma lookup_only_path_skips_id_correction :
  let w := world_after_example in
  let used :=
    handles_used
      (skipn (length (trace w))
         (trace (snd (get_results_from_db_path "cool_experiment/my_sample/0"
                                               false false w)))) in
  fst (load_experiment_by_name "cool_experiment" "my_sample" w)
  = Return (mkExperiment 1 None)
  /\ fst (get_results_from_db_path "cool_experiment/my_sample/0" false false w)
     = Return (AsDataSet (mkDataSet 1 1 ["x"; "m"] (sweep_rows example_sweep)))
  /\ used = [mkExperiment 1 None]
  /\ ~ (forall e, In e used -> id e = Some (exp_id e)).
Proof.
  cbv zeta.
  assert (Hused : handles_used
            (skipn (length (trace world_after_example))
               (trace (snd (get_results_from_db_path "cool_experiment/my_sample/0"
                              false false world_after_example))))
          = [mkExperiment 1 None]) by (vm_compute; reflexivity).
  split; [vm_compute; reflexivity|]. split; [vm_compute; reflexivity|].
  split; [exact Hused|].
  rewrite Hused. intros H. specialize (H (mkExperiment 1 None) (or_introl eq_refl)).
  discriminate H.
Qed.

(** ** The default sample name *)

(** C7: a base path without a slash makes [do_experiment] look up, and
    if need be create, the experiment under the sample name ["None"],
    the same identity as the base path followed by [/None]. *)
Theorem default_sample_name (base_path : string) :
  PyStr.contains PyStr.slash base_path = false ->
  parse_base_path base_path = (base_path, "None")
  /\ parse_base_path (base_path ++ "/None") = (base_path, "None")
  /\ forall setup sweep cleanup axes fmt,
       do_experiment base_path setup sweep cleanup axes fmt
       = (experiment <- resolve_experiment base_path "None" ;;
          run_measurement base_path experiment setup sweep cleanup axes
                          (default_format fmt))
       /\ forall w,
           let w' :=
             snd (do_experiment base_path setup sweep cleanup axes fmt w) in
           (exists rest,
              trace w'
              = trace w ++ CallLoadExperimentByName base_path "None" :: rest)
           /\ (length (lookup base_path "None" w) = 1
               \/ In (mkExperimentRow (fresh_exp_id w) base_path "None" 1)
                     (experiments w')).
Proof.
  intros Hb.
  assert (Hp : parse_base_path base_path = (base_path, "None")).
  { unfold parse_base_path. now rewrite (split_no_sep _ _ Hb). }
  split; [exact Hp|]. split.
  - exact (parse_base_path_joined base_path "None" Hb).
  - intros. split.
    + unfold do_experiment. rewrite Hp. reflexivity.
    + intros w w'. split.
      * exact (do_experiment_first_call base_path base_path "None"
                 setup sweep cleanup axes fmt w Hp).
      * destruct (Nat.eq_dec (length (lookup base_path "None" w)) 1) as [H1 | H1];
          [now left | right].
        subst w'.
        rewrite (do_experiment_creates base_path base_path "None"
                   setup sweep cleanup axes fmt w Hp H1).
        rewrite map_app. apply in_or_app. right. simpl.
        unfold bump_counter. simpl. rewrite Nat.eqb_refl. now left.
Qed.

Lemma default_sample_name_witness :
  parse_base_path "cool_experiment" = ("cool_experiment", "None").
Proof. exact (proj1 (default_sample_name "cool_experiment" eq_refl)). Defined.

(** * Further properties of the code *)

(** ** Segments of a path *)

Lemma split_segments_no_sep (sep : ascii) (s : string) :
  Forall (fun seg => PyStr.contains sep seg = false) (PyStr.split sep s).
Proof.
  induction s as [|ch rest IH]; simpl.
  - constructor; [reflexivity|constructor].
  - destruct (Ascii.eqb ch sep) eqn:E.
    + constructor; [reflexivity|exact IH].
    + destruct (PyStr.split sep rest) as [|seg segs]; inversion IH; subst.
      * constructor; [simpl; now rewrite E|constructor].
      * constructor; [simpl; now rewrite E|assumption].
Qed.

Lemma split_single_iff (sep : ascii) (s : string) :
  length (PyStr.split sep s) = 1 <-> PyStr.contains sep s = false.
Proof.
  split.
  - induction s as [|ch rest IH]; simpl; [reflexivity|].
    destruct (Ascii.eqb ch sep) eqn:E.
    + simpl. intros H. injection H as H.
      destruct (PyStr.split sep rest) eqn:Es; [now apply split_nonempty in Es|].
      discriminate.
    + destruct (PyStr.split sep rest) as [|seg segs] eqn:Es;
        [now apply split_nonempty in Es|].
      simpl. intros H. apply IH. exact H.
  - intros H. now rewrite (split_no_sep _ _ H).
Qed.

Lemma join_cons (j p q : string) (ps : list string) :
  PyStr.join j (p :: q :: ps) = (p ++ j ++ PyStr.join j (q :: ps))%string.
Proof. reflexivity. Qed.

Lemma join_snoc (j : string) (ps : list string) (p q : string) :
  PyStr.join j ((p :: ps) ++ [q]) = (PyStr.join j (p :: ps) ++ j ++ q)%string.
Proof.
  revert p. induction ps as [|a ps IH]; intros p.
  - reflexivity.
  - change ((p :: a :: ps) ++ [q]) with (p :: ((a :: ps) ++ [q])).
    destruct ((a :: ps) ++ [q]) as [|b bs] eqn:E; [discriminate|].
    rewrite join_cons, <- E, IH, join_cons, !append_assoc. reflexivity.
Qed.

(** X1: [do_experiment] cuts a base path at its first slash: the
    experiment name never contains a slash, and when the base path has
    one, experiment name, slash and sample name give the base path
    back. *)
Theorem parse_base_path_lossless (base_path : string) :
  PyStr.contains PyStr.slash (fst (parse_base_path base_path)) = false
  /\ (PyStr.contains PyStr.slash base_path = true ->
      (fst (parse_base_path base_path) ++ "/" ++ snd (parse_base_path base_path))%string
      = base_path).
Proof.
  unfold parse_base_path. simpl fst. simpl snd.
  pose proof (split_segments_no_sep PyStr.slash base_path) as Hall.
  pose proof (join_split PyStr.slash base_path) as Hjoin.
  pose proof (split_single_iff PyStr.slash base_path) as Hone.
  destruct (PyStr.split PyStr.slash base_path) as [|seg [|seg2 segs]] eqn:E.
  - now apply split_nonempty in E.
  - split; [now inversion Hall|].
    intros Hc. destruct Hone as [Hone _]. rewrite (Hone eq_refl) in Hc.
    discriminate.
  - split; [now inversion Hall|].
    intros _. simpl Nat.eqb. cbv iota.
    unfold PyStr.first, PyStr.from_1. simpl hd. simpl tl.
    exact Hjoin.
Qed.

Lemma parse_base_path_lossless_witness :
  ("cool_experiment" ++ "/" ++ "my_sample/day1")%string
  = "cool_experiment/my_sample/day1".
Proof.
  exact (proj2 (parse_base_path_lossless "cool_experiment/my_sample/day1") eq_refl).
Defined.

Lemma last_cons_cons {A} (a b : A) (l : list A) (d : A) :
  last (a :: b :: l) d = last (b :: l) d.
Proof. reflexivity. Qed.

Lemma last_in_forall {A} (P : A -> Prop) (l : list A) (d : A) :
  l <> [] -> Forall P l -> P (last l d).
Proof.
  intros Hne Hall. rewrite Forall_forall in Hall. apply Hall.
  destruct l as [|a l]; [congruence|].
  rewrite (app_removelast_last d (l:=a :: l)) at 2 by discriminate.
  apply in_or_app. right. now left.
Qed.

(** X2: what a successful decoding of a database path says about the
    path.  The experiment name and the run-number segment contain no
    slash, the run number is [int] of that segment, and the path is
    either that segment alone (which is then also the experiment name),
    or name and segment, or name, sample name and segment, joined by
    slashes; in the first two forms the sample name is empty. *)
Theorem decode_db_path_shape (db_path name sample : string) (n : Z) :
  decode_db_path db_path = Return (name, n, sample) ->
  exists segment,
    PyStr.int segment = Some n
    /\ PyStr.contains PyStr.slash segment = false
    /\ PyStr.contains PyStr.slash name = false
    /\ ((db_path = segment /\ name = segment /\ sample = EmptyString)
        \/ (db_path = (name ++ "/" ++ segment)%string /\ sample = EmptyString)
        \/ db_path = (name ++ "/" ++ sample ++ "/" ++ segment)%string).
Proof.
  unfold decode_db_path. intros Hd.
  pose proof (split_segments_no_sep PyStr.slash db_path) as Hall.
  pose proof (join_split PyStr.slash db_path) as Hjoin.
  pose proof (split_nonempty PyStr.slash db_path) as Hne.
  exists (PyStr.final (PyStr.split PyStr.slash db_path)).
  destruct (PyStr.int (PyStr.final (PyStr.split PyStr.slash db_path))) as [m|] eqn:Ei;
    [|discriminate].
  injection Hd as Hname Hn Hsample. subst m.
  split; [reflexivity|].
  split; [exact (last_in_forall _ _ EmptyString Hne Hall)|].
  destruct (PyStr.split PyStr.slash db_path) as [|x [|y [|z rest]]] eqn:E;
    [congruence| | |].
  - simpl in *. subst. split; [now inversion Hall|]. left. auto.
  - simpl in *. subst. split; [now inversion Hall|]. right. left. auto.
  - split; [subst name; now inversion Hall|]. right. right.
    unfold PyStr.first, PyStr.final, PyStr.from_1_to_last in *.
    simpl hd in Hname. simpl tl in Hsample. subst name.
    rewrite last_cons_cons.
    rewrite join_cons in Hjoin.
    rewrite (app_removelast_last EmptyString (l:=y :: z :: rest)) in Hjoin
      by discriminate.
    change (removelast (y :: z :: rest)) with (y :: removelast (z :: rest))
      in Hjoin, Hsample.
    rewrite join_snoc in Hjoin.
    change (String PyStr.slash EmptyString) with "/"%string in Hjoin.
    rewrite Hsample in Hjoin. now rewrite <- Hjoin.
Qed.

Lemma decode_db_path_shape_witness :
  exists segment,
    PyStr.int segment = Some 12%Z
    /\ PyStr.contains PyStr.slash segment = false
    /\ PyStr.contains PyStr.slash "cool_experiment" = false
    /\ (("cool_experiment/a/b/12" = segment /\ "cool_experiment" = segment
         /\ "a/b" = EmptyString)
        \/ ("cool_experiment/a/b/12" = ("cool_experiment" ++ "/" ++ segment)%string
            /\ "a/b" = EmptyString)
        \/ "cool_experiment/a/b/12"
           = ("cool_experiment" ++ "/" ++ "a/b" ++ "/" ++ segment)%string).
Proof.
  exact (decode_db_path_shape "cool_experiment/a/b/12" "cool_experiment" "a/b"
           12%Z eq_refl).
Defined.

Lemma decode_db_path_two_parts (c : string) (n : nat) :
  PyStr.contains PyStr.slash c = false ->
  decode_db_path (c ++ "/" ++ PyStr.str n) = Return (c, Z.of_nat n, EmptyString).
Proof.
  intros Hc. unfold decode_db_path.
  rewrite (split_locator c _ Hc), (split_no_sep _ _ (str_no_slash n)).
  unfold PyStr.final, PyStr.first, PyStr.from_1_to_last. simpl last.
  now rewrite int_str.
Qed.

(** X3: for a base path without a slash, [do_experiment] stores the
    experiment under the sample name ["None"], but the locator it
    builds, the base path and the counter, is decoded by
    [get_results_from_db_path] with the empty sample name, and that is
    the name it looks up. *)
Theorem single_segment_locator_sample (base_path : string) (n : nat) :
  PyStr.contains PyStr.slash base_path = false ->
  let locator := (base_path ++ "/" ++ PyStr.str n)%string in
  parse_base_path base_path = (base_path, "None")
  /\ decode_db_path locator = Return (base_path, Z.of_nat n, EmptyString)
  /\ forall as_dict flatten w,
       exists rest,
         trace (snd (get_results_from_db_path locator as_dict flatten w))
         = trace w ++ CallLoadExperimentByName base_path EmptyString :: rest.
Proof.
  intros Hb locator.
  pose proof (decode_db_path_two_parts base_path n Hb) as Hd.
  split; [unfold parse_base_path; now rewrite (split_no_sep _ _ Hb)|].
  split; [exact Hd|].
  intros as_dict flatten w.
  subst locator. rewrite (get_results_decoded _ _ _ _ _ _ Hd).
  destruct (Nat.eq_dec (length (lookup base_path EmptyString w)) 1) as [H1 | H1].
  - destruct (lookup base_path EmptyString w) as [|r [|r' rest]] eqn:El;
      try discriminate H1.
    rewrite (fetch_run_single _ _ _ _ _ _ _ El). simpl. eauto.
  - rewrite (fetch_run_not_single _ _ _ _ _ _ H1). simpl. eauto.
Qed.

Lemma single_segment_locator_sample_witness :
  parse_base_path "cool_experiment" = ("cool_experiment", "None")
  /\ decode_db_path "cool_experiment/0"
     = Return ("cool_experiment", 0%Z, EmptyString).
Proof.
  destruct (single_segment_locator_sample "cool_experiment" 0 eq_refl)
    as (Hp & Hd & _).
  split; [exact Hp | exact Hd].
Defined.

(** ** The measurement and the order of its callbacks *)

Lemma fold_add_before_run (l : list Callback) (m : Measurement) :
  fold_left (fun m cb => add_before_run cb m) l m
  = mkMeasurement (exp m) (subscribers m) (before_run m ++ l) (after_run m)
                  (registered m) (write_period_ms m).
Proof.
  revert m. induction l as [|cb l IH]; intros m; simpl.
  - rewrite app_nil_r. now destruct m.
  - rewrite IH. simpl. now rewrite <- app_assoc.
Qed.

Lemma fold_add_after_run (l : list Callback) (m : Measurement) :
  fold_left (fun m cb => add_after_run cb m) l m
  = mkMeasurement (exp m) (subscribers m) (before_run m) (after_run m ++ l)
                  (registered m) (write_period_ms m).
Proof.
  revert m. induction l as [|cb l IH]; intros m; simpl.
  - rewrite app_nil_r. now destruct m.
  - rewrite IH. simpl. now rewrite <- app_assoc.
Qed.

Lemma fold_add_subscriber (l : list (string * list string)) (m : Measurement) :
  fold_left (fun m axis => add_subscriber (fst axis) m) l m
  = mkMeasurement (exp m) (subscribers m ++ map fst l) (before_run m)
                  (after_run m) (registered m) (write_period_ms m).
Proof.
  revert m. induction l as [|a l IH]; intros m; simpl.
  - rewrite app_nil_r. now destruct m.
  - rewrite IH. simpl. now rewrite <- app_assoc.
Qed.

Lemma build_measurement_eq (e : Experiment) (setup : list Callback)
    (sweep : Sweep) (cleanup : list Callback)
    (axes : option (list (string * list string))) :
  build_measurement e setup sweep cleanup axes
  = mkMeasurement e
      (match axes with None => [] | Some l => map fst l end)
      setup cleanup (sweep_parameters sweep) (Some 1000).
Proof.
  unfold build_measurement.
  rewrite fold_add_after_run, fold_add_before_run.
  destruct axes as [l|]; [rewrite fold_add_subscriber|]; reflexivity.
Qed.

Lemma do_experiment_measurement (base_path : string) (setup : list Callback)
    (sweep : Sweep) (cleanup : list Callback)
    (axes : option (list (string * list string))) (w : World) :
  exists e w1,
    resolve_experiment (fst (parse_base_path base_path))
                       (snd (parse_base_path base_path)) w = (Return e, w1)
    /\ fst (do_experiment base_path setup sweep cleanup axes
                          (Some ["measurement"]) w)
       = Return [MeasurementItem
                   (mkMeasurement e
                      (match axes with None => [] | Some l => map fst l end)
                      setup cleanup (sweep_parameters sweep) (Some 1000))]
    /\ forall fmt,
         trace (snd (do_experiment base_path setup sweep cleanup axes fmt w))
         = trace w1 ++ [ReadLastCounter e] ++ map CallBeforeRun setup
                    ++ [CallCreateRun e]
                    ++ map CallAddResult (sweep_rows sweep)
                    ++ map CallAfterRun cleanup.
Proof.
  destruct (do_experiment_spec base_path setup sweep cleanup axes w)
    as (e & w1 & r & old & d & Hres & _ & _ & _ & _ & Hdo).
  exists e, w1. split; [exact Hres|].
  rewrite Hdo. rewrite build_measurement_eq. split; [reflexivity|].
  intros fmt. rewrite Hdo, build_measurement_eq. simpl.
  repeat rewrite <- app_assoc. reflexivity.
Qed.

(** X4: the measurement [do_experiment] runs, and returns under
    [measurement], is bound to the resolved experiment and holds one
    subscriber per key of [live_plot_axes], the setup callbacks and the
    cleanup callbacks in list order, the parameters of the sweep and a
    write period of one second.  The framework is called in this order:
    counter read, setup callbacks, run creation, one [add_result] per
    row of the sweep, cleanup callbacks. *)
Theorem measurement_configuration (base_path : string) (setup : list Callback)
    (sweep : Sweep) (cleanup : list Callback)
    (axes : option (list (string * list string))) (w : World) :
  exists e w1,
    resolve_experiment (fst (parse_base_path base_path))
                       (snd (parse_base_path base_path)) w = (Return e, w1)
    /\ fst (do_experiment base_path setup sweep cleanup axes
                          (Some ["measurement"]) w)
       = Return [MeasurementItem
                   (mkMeasurement e
                      (match axes with None => [] | Some l => map fst l end)
                      setup cleanup (sweep_parameters sweep) (Some 1000))]
    /\ forall fmt,
         trace (snd (do_experiment base_path setup sweep cleanup axes fmt w))
         = trace w1 ++ [ReadLastCounter e] ++ map CallBeforeRun setup
                    ++ [CallCreateRun e]
                    ++ map CallAddResult (sweep_rows sweep)
                    ++ map CallAfterRun cleanup.
Proof.
  destruct (do_experiment_measurement base_path setup sweep cleanup axes w)
    as (e & w1 & Hres & Hm & Htrace).
  exists e, w1. auto.
Qed.

(** ** The order of the returned results *)

Lemma results_lookup_key path rid d e m (k : string) (item : ResultItem) :
  results_lookup path rid d e m k = Return item ->
  item_key item = k /\ is_result_key k = true.
Proof.
  unfold results_lookup, is_result_key. simpl.
  destruct (String.eqb k "data_set_path") eqn:E1;
    [apply String.eqb_eq in E1; intros [= <-]; auto|].
  destruct (String.eqb k "dataid") eqn:E2;
    [apply String.eqb_eq in E2; intros [= <-]; auto|].
  destruct (String.eqb k "dataset") eqn:E3;
    [apply String.eqb_eq in E3; intros [= <-]; auto|].
  destruct (String.eqb k "experiment") eqn:E4;
    [apply String.eqb_eq in E4; intros [= <-]; auto|].
  destruct (String.eqb k "measurement") eqn:E5;
    [apply String.eqb_eq in E5; intros [= <-]; auto|discriminate].
Qed.

Lemma select_keys path rid d e m (fmt : list string) (items : list ResultItem) :
  select (results_lookup path rid d e m) fmt = Return items ->
  map item_key items = fmt /\ forallb is_result_key fmt = true.
Proof.
  revert items. induction fmt as [|k fmt IH]; intros items; simpl.
  - intros [= <-]. auto.
  - destruct (results_lookup path rid d e m k) as [item|] eqn:Ek; [|discriminate].
    destruct (select (results_lookup path rid d e m) fmt) as [rest|] eqn:Es;
      [|discriminate].
    intros [= <-]. destruct (results_lookup_key _ _ _ _ _ _ _ Ek) as [Hk Hv].
    destruct (IH rest eq_refl) as [Hm Hf]. simpl. now rewrite Hk, Hm, Hv, Hf.
Qed.

Lemma select_known path rid d e m (fmt : list string) :
  forallb is_result_key fmt = true ->
  exists items, select (results_lookup path rid d e m) fmt = Return items.
Proof.
  induction fmt as [|k fmt IH]; simpl; [eauto|].
  intros H. apply andb_true_iff in H as [Hk Hf].
  destruct (results_lookup_known path rid d e m k Hk) as [item Hitem].
  destruct (IH Hf) as [rest Hrest].
  rewrite Hitem, Hrest. eauto.
Qed.

(** X5: whenever [do_experiment] returns normally, every name of
    [return_format] is a key of the results and the call returns one
    item per requested name, in the requested order (repeated names
    give repeated items, the empty list gives the empty list). *)
Theorem return_format_order (base_path : string) (setup : list Callback)
    (sweep : Sweep) (cleanup : list Callback)
    (axes : option (list (string * list string))) (fmt : list string)
    (w : World) (items : list ResultItem) :
  fst (do_experiment base_path setup sweep cleanup axes (Some fmt) w)
  = Return items ->
  forallb is_result_key fmt = true
  /\ map item_key items = fmt
  /\ length items = length fmt.
Proof.
  destruct (do_experiment_spec base_path setup sweep cleanup axes w)
    as (e & w1 & r & old & d & _ & _ & _ & _ & _ & Hdo).
  rewrite Hdo. simpl fst. simpl default_format. intros H.
  apply select_keys in H as [Hm Hf].
  split; [exact Hf|]. split; [exact Hm|].
  rewrite <- Hm. symmetry. apply length_map.
Qed.

Lemma return_format_order_witness :
  fst (do_experiment "cool_experiment/my_sample" no_callback example_sweep
                     no_callback None
                     (Some ["dataid"; "data_set_path"; "dataid"]) empty_world)
  = Return [DataIdItem 1; PathItem "cool_experiment/my_sample/0"; DataIdItem 1]
  /\ forallb is_result_key ["dataid"; "data_set_path"; "dataid"] = true
  /\ map item_key
         [DataIdItem 1; PathItem "cool_experiment/my_sample/0"; DataIdItem 1]
     = ["dataid"; "data_set_path"; "dataid"]
  /\ length [DataIdItem 1; PathItem "cool_experiment/my_sample/0"; DataIdItem 1]
     = length ["dataid"; "data_set_path"; "dataid"].
Proof.
  split; [vm_compute; reflexivity|].
  apply (return_format_order "cool_experiment/my_sample" no_callback
           example_sweep no_callback None ["dataid"; "data_set_path"; "dataid"]
           empty_world).
  vm_compute. reflexivity.
Defined.

(** ** The result mapping *)

Lemma dict_get_set (n n' : string) (v : Values) (d : list (string * Values)) :
  dict_get n (dict_set n' v d)
  = if String.eqb n' n then Some v else dict_get n d.
Proof.
  unfold dict_get. induction d as [|[k old] rest IH]; simpl.
  - destruct (String.eqb n' n); reflexivity.
  - destruct (String.eqb k n') eqn:Ek; simpl.
    + apply String.eqb_eq in Ek. subst k.
      destruct (String.eqb n' n); reflexivity.
    + destruct (String.eqb k n) eqn:En; simpl.
      * apply String.eqb_eq in En. subst k. now rewrite String.eqb_sym, Ek.
      * exact IH.
Qed.

Lemma dict_set_keys (n : string) (v : Values) (d : list (string * Values)) :
  (forall k, In k (map fst (dict_set n v d)) <-> k = n \/ In k (map fst d))
  /\ (NoDup (map fst d) -> NoDup (map fst (dict_set n v d))).
Proof.
  induction d as [|[k0 old] rest [IHin IHnd]]; simpl.
  - split; [intros k; intuition|]. intros _. constructor; [intros []|constructor].
  - destruct (String.eqb k0 n) eqn:E; simpl.
    + apply String.eqb_eq in E. subst k0. split; [intros k; intuition|auto].
    + split.
      * intros k. rewrite IHin. intuition.
      * intros Hnd. inversion Hnd as [|? ? Hnot Hrest]; subst.
        constructor; [|auto].
        rewrite IHin. intros [-> | Hin]; [|contradiction].
        now rewrite String.eqb_refl in E.
Qed.

Lemma concat_singletons {A B} (f : A -> B) (l : list A) :
  concat (map (fun a => [f a]) l) = map f l.
Proof. induction l as [|a l IH]; simpl; [reflexivity|now rewrite IH]. Qed.

Lemma dataset_to_dict_fold (d : DataSet) (flat : bool) (ps : list string)
    (acc : list (string * Values)) :
  let dict :=
    fold_left
      (fun data_dict name =>
         let values := np_array (get_data d name) in
         let values := if flat then flatten values else values in
         dict_set name values data_dict) ps acc in
  (forall name, In name ps -> dict_get name dict = Some (column d flat name))
  /\ (forall name, ~ In name ps -> dict_get name dict = dict_get name acc)
  /\ (forall k, In k (map fst dict) <-> In k ps \/ In k (map fst acc))
  /\ (NoDup (map fst acc) -> NoDup (map fst dict)).
Proof.
  revert acc. induction ps as [|p ps IH]; intros acc; cbv zeta in *; simpl.
  - repeat split; tauto.
  - assert (Hval : (if flat then flatten (np_array (get_data d p))
                    else np_array (get_data d p)) = column d flat p).
    { unfold column, get_data, np_array, flatten.
      destruct (results d) as [|row rows]; destruct flat; simpl; try reflexivity.
      now rewrite concat_singletons. }
    rewrite Hval.
    destruct (IH (dict_set p (column d flat p) acc)) as (Hin & Hout & Hkeys & Hnd).
    destruct (dict_set_keys p (column d flat p) acc) as [Hk1 Hk2].
    repeat split.
    + intros name [-> | Hn].
      * destruct (in_dec string_dec name ps) as [Hi | Hi]; [now apply Hin|].
        rewrite (Hout name Hi), dict_get_set. now rewrite String.eqb_refl.
      * now apply Hin.
    + intros name Hn.
      rewrite Hout by tauto. rewrite dict_get_set.
      destruct (String.eqb p name) eqn:E; [|reflexivity].
      apply String.eqb_eq in E. tauto.
    + rewrite Hkeys, Hk1. intuition.
    + rewrite Hkeys, Hk1. intuition.
    + intros H. apply Hnd, Hk2, H.
Qed.

Lemma dataset_to_dict_spec (d : DataSet) (flat : bool) :
  NoDup (map fst (dataset_to_dict d flat))
  /\ (forall name, In name (map fst (dataset_to_dict d flat))
                   <-> In name (parameters d))
  /\ (forall name, In name (parameters d) ->
                   dict_get name (dataset_to_dict d flat)
                   = Some (column d flat name))
  /\ (forall name, ~ In name (parameters d) ->
                   dict_get name (dataset_to_dict d flat) = None).
Proof.
  destruct (dataset_to_dict_fold d flat (parameters d) [])
    as (Hin & Hout & Hkeys & Hnd).
  unfold dataset_to_dict. cbv zeta in *. repeat split.
  - apply Hnd. constructor.
  - intros H. apply Hkeys in H as [H | []]. exact H.
  - intros H. apply Hkeys. now left.
  - exact Hin.
  - intros name Hn. now rewrite (Hout name Hn).
Qed.

(** X6: [dataset_to_dict] maps every parameter name of the run, and
    nothing else, to the column of that name; a name listed twice
    appears once.  The column has one cell per row of the run, in row
    order: flattened it is the list of those cells; unflattened it is
    the list of one-cell rows, except for a run without rows, whose
    column is the empty one-dimensional array. *)
Theorem dataset_to_dict_columns (d : DataSet) (flat : bool) :
  let dict := dataset_to_dict d flat in
  NoDup (map fst dict)
  /\ (forall name, In name (map fst dict) <-> In name (parameters d))
  /\ (forall name, ~ In name (parameters d) -> dict_get name dict = None)
  /\ (forall name, In name (parameters d) ->
       dict_get name dict
       = Some (match flat, results d with
               | true, rows => Array1 (map (cell name) rows)
               | false, [] => Array1 []
               | false, rows => Array2 (map (fun row => [cell name row]) rows)
               end)).
Proof.
  destruct (dataset_to_dict_spec d flat) as (Hnd & Hkeys & Hin & Hout).
  cbv zeta. split; [exact Hnd|]. split; [exact Hkeys|]. split; [exact Hout|].
  intros name Hn. rewrite (Hin name Hn). unfold column.
  destruct flat; [reflexivity|]. now destruct (results d).
Qed.

(** X7: with [flatten_values] every column comes back one-dimensional,
    with as many cells as the run has rows.  Without it, a run that has
    rows gives that many one-cell rows, whose concatenation is the
    flattened column, and a run without rows gives the empty
    one-dimensional array. *)
Theorem flatten_gives_one_cell_per_row (d : DataSet) (name : string) :
  In name (parameters d) ->
  (exists cells,
     dict_get name (dataset_to_dict d true) = Some (Array1 cells)
     /\ length cells = length (results d))
  /\ (results d <> [] ->
      exists cells,
        dict_get name (dataset_to_dict d false) = Some (Array2 cells)
        /\ length cells = length (results d)
        /\ Forall (fun c => length c = 1) cells
        /\ dict_get name (dataset_to_dict d true) = Some (Array1 (concat cells)))
  /\ (results d = [] ->
      dict_get name (dataset_to_dict d false) = Some (Array1 [])).
Proof.
  intros Hn.
  destruct (dataset_to_dict_spec d true) as (_ & _ & Ht & _).
  destruct (dataset_to_dict_spec d false) as (_ & _ & Hf & _).
  rewrite (Ht name Hn), (Hf name Hn). unfold column. split; [|split].
  - eexists. split; [reflexivity|]. apply length_map.
  - intros Hne. destruct (results d) as [|row rows] eqn:E; [congruence|].
    eexists. split; [reflexivity|]. split; [apply length_map|]. split.
    + apply Forall_forall. intros c Hc. apply in_map_iff in Hc as (r & <- & _).
      reflexivity.
    + now rewrite concat_singletons.
  - intros ->. reflexivity.
Qed.

Lemma flatten_gives_one_cell_per_row_witness :
  exists cells,
    dict_get "m" (dataset_to_dict (mkDataSet 1 1 ["x"; "m"] (sweep_rows example_sweep))
                                  true)
    = Some (Array1 cells)
    /\ length cells = 3.
Proof.
  exact (proj1 (flatten_gives_one_cell_per_row
                  (mkDataSet 1 1 ["x"; "m"] (sweep_rows example_sweep)) "m"
                  (or_intror (or_introl eq_refl)))).
Defined.

(** ** What the functions do to the store *)

Lemma bump_counter_id (k : nat) (r : ExperimentRow) :
  row_exp_id (bump_counter k r) = row_exp_id r
  /\ row_name (bump_counter k r) = row_name r
  /\ row_sample_name (bump_counter k r) = row_sample_name r.
Proof. unfold bump_counter. destruct (Nat.eqb (row_exp_id r) k); auto. Qed.

Lemma lookup_bumped (k : nat) (name sample : string) (l : list ExperimentRow) :
  filter (matches name sample) (map (bump_counter k) l)
  = map (bump_counter k) (filter (matches name sample) l).
Proof.
  induction l as [|r l IH]; simpl; [reflexivity|].
  assert (Hm : matches name sample (bump_counter k r) = matches name sample r).
  { unfold matches. destruct (bump_counter_id k r) as (_ & -> & ->). reflexivity. }
  rewrite Hm. destruct (matches name sample r); simpl; now rewrite IH.
Qed.

Lemma fresh_exp_id_gt (w : World) (r : ExperimentRow) :
  In r (experiments w) -> row_exp_id r < fresh_exp_id w.
Proof.
  intros Hin. unfold fresh_exp_id.
  assert (H : Forall (fun k => k <= list_max (map row_exp_id (experiments w)))
                     (map row_exp_id (experiments w))).
  { apply list_max_le. lia. }
  rewrite Forall_forall in H.
  specialize (H (row_exp_id r) (in_map row_exp_id _ _ Hin)). lia.
Qed.

Lemma runs_of_fresh (w : World) :
  consistent w -> runs_of (fresh_exp_id w) w = [].
Proof.
  intros (_ & Hc & _). unfold runs_of.
  destruct (filter (fun d => Nat.eqb (run_exp_id d) (fresh_exp_id w)) (runs w))
    as [|d l] eqn:E; [reflexivity|].
  assert (Hin : In d (filter (fun d => Nat.eqb (run_exp_id d) (fresh_exp_id w))
                             (runs w))) by (rewrite E; now left).
  apply filter_In in Hin as [Hin Hid]. apply Nat.eqb_eq in Hid.
  apply Hc in Hin. apply in_map_iff in Hin as (r & Hr & Hrin).
  apply fresh_exp_id_gt in Hrin. lia.
Qed.

Lemma add_rows_untouched (rid : nat) (rows : list Row) (rs : list DataSet) :
  (forall d, In d rs -> run_id d <> rid) -> add_rows rid rows rs = rs.
Proof.
  intros Hne. unfold add_rows. induction rows as [|row rows IH]; simpl;
    [reflexivity|].
  assert (Hmap : map (append_row rid row) rs = rs).
  { rewrite <- (map_id rs) at 2. apply map_ext_in. intros d Hd.
    unfold append_row. apply Hne in Hd. apply Nat.eqb_neq in Hd.
    now rewrite Hd. }
  now rewrite Hmap.
Qed.

Lemma find_app_fresh {A} (p : A -> bool) (l : list A) (x : A) :
  (forall a, In a l -> p a = false) -> p x = true -> find p (l ++ [x]) = Some x.
Proof.
  intros Hl Hx. induction l as [|a l IH]; simpl.
  - now rewrite Hx.
  - rewrite (Hl a (or_introl eq_refl)). apply IH. intros b Hb. apply Hl. now right.
Qed.

Lemma resolved_experiment_id (name sample : string) (w : World) :
  exp_id (resolved_experiment name sample w) = resolved_id name sample w.
Proof.
  unfold resolved_experiment, resolved_id.
  now destruct (lookup name sample w) as [|r [|r' rest]].
Qed.

Lemma resolve_experiment_eq (name sample : string) (w : World) :
  exists w1,
    resolve_experiment name sample w
    = (Return (resolved_experiment name sample w), w1)
    /\ experiments w1 = resolved_rows name sample w
    /\ runs w1 = runs w
    /\ db_location w1 = db_location w.
Proof.
  unfold resolved_experiment, resolved_rows.
  destruct (lookup name sample w) as [|r [|r' rest]] eqn:El.
  - eexists. rewrite resolve_experiment_created by (rewrite El; discriminate).
    repeat split.
  - eexists. rewrite (resolve_experiment_found _ _ _ _ El). repeat split.
  - eexists. rewrite resolve_experiment_created by (rewrite El; discriminate).
    repeat split.
Qed.

Lemma run_target_resolved (name sample : string) (w w1 : World) :
  experiments w1 = resolved_rows name sample w ->
  runs w1 = runs w ->
  run_target (resolved_experiment name sample w) w1
  = resolved_target name sample w.
Proof.
  intros Hrows Hruns.
  unfold run_target, resolved_target, runs_of, last_exp_id.
  now rewrite resolved_experiment_id, Hrows, Hruns.
Qed.

Lemma do_experiment_experiments (base_path name sample : string)
    (setup : list Callback) (sweep : Sweep) (cleanup : list Callback)
    (axes : option (list (string * list string))) (fmt : option (list string))
    (w : World) :
  parse_base_path base_path = (name, sample) ->
  experiments (snd (do_experiment base_path setup sweep cleanup axes fmt w))
  = map (bump_counter (resolved_target name sample w))
        (resolved_rows name sample w).
Proof.
  intros Hp.
  destruct (do_experiment_spec base_path setup sweep cleanup axes w)
    as (e & w1 & r & old & d & Hres & _ & _ & _ & _ & Hdo).
  rewrite Hdo. rewrite Hp in Hres. simpl in Hres.
  destruct (resolve_experiment_eq name sample w)
    as (w1' & Hres' & Hrows & Hruns & _).
  rewrite Hres in Hres'. injection Hres' as -> ->.
  unfold printed, world_after_run. cbv zeta. simpl experiments. simpl snd.
  rewrite exp_build_measurement.
  rewrite (run_target_resolved name sample w
             (emit [ReadLastCounter (resolved_experiment name sample w)] w1')
             Hrows Hruns).
  simpl. now rewrite Hrows.
Qed.

Lemma run_measurement_eq (base_path : string) (e : Experiment)
    (setup : list Callback) (sweep : Sweep) (cleanup : list Callback)
    (axes : option (list (string * list string))) (fmt : list string)
    (w : World) (r : ExperimentRow) (d : DataSet) :
  find_row (exp_id e) w = Some r ->
  let m := build_measurement e setup sweep cleanup axes in
  let path := (base_path ++ "/" ++ PyStr.str (run_counter r))%string in
  let w_run := world_after_run m (sweep_rows sweep) (emit [ReadLastCounter e] w) in
  find (fun d => Nat.eqb (run_id d) (S (length (runs w)))) (runs w_run) = Some d ->
  run_measurement base_path e setup sweep cleanup axes fmt w
  = (select (results_lookup path (S (length (runs w))) d e m) fmt,
     printed ("Completed measurement. Database path: " ++ path) w_run).
Proof.
  intros Hr m path w_run Hd.
  destruct (run_target_row e w r Hr) as [r' Hr'].
  unfold run_measurement.
  unfold bind at 1. unfold last_counter, bind at 1, log. simpl.
  unfold find_row in Hr |- *. simpl. rewrite Hr.
  fold m.
  rewrite (run_context m (sweep_rows sweep) (emit [ReadLastCounter e] w) r').
  - fold w_run. unfold bind at 1, dataset_of. simpl length.
    rewrite Hd. unfold bind, print, lift. fold path. reflexivity.
  - subst m. rewrite exp_build_measurement. exact Hr'.
Qed.

Lemma resolved_rows_spec (name sample : string) (w : World) :
  (forall r, In r (resolved_rows name sample w) ->
             In r (experiments w)
             \/ (r = mkExperimentRow (fresh_exp_id w) name sample 0
                 /\ resolved_id name sample w = fresh_exp_id w))
  /\ (forall r, In r (experiments w) -> In r (resolved_rows name sample w))
  /\ In (resolved_id name sample w)
        (map row_exp_id (resolved_rows name sample w)).
Proof.
  unfold resolved_rows, resolved_id, lookup.
  destruct (filter (matches name sample) (experiments w)) as [|r0 [|r1 rest]] eqn:El.
  - repeat split.
    + intros r Hin. apply in_app_or in Hin as [Hin | [<- | []]]; auto.
    + intros r Hin. apply in_or_app. now left.
    + rewrite map_app. apply in_or_app. right. now left.
  - repeat split; auto.
    assert (Hin : In r0 (filter (matches name sample) (experiments w)))
      by (rewrite El; now left).
    apply filter_In in Hin as [Hin _]. now apply in_map.
  - repeat split.
    + intros r Hin. apply in_app_or in Hin as [Hin | [<- | []]]; auto.
    + intros r Hin. apply in_or_app. now left.
    + rewrite map_app. apply in_or_app. right. now left.
Qed.

Lemma resolved_counter (name sample : string) (w : World) (r : ExperimentRow) :
  consistent w ->
  In r (resolved_rows name sample w) ->
  run_counter r = length (runs_of (row_exp_id r) w).
Proof.
  intros Hcons Hin.
  destruct (resolved_rows_spec name sample w) as (Hrows & _ & _).
  destruct (Hrows r Hin) as [Hold | [-> _]].
  - now apply Hcons.
  - simpl. now rewrite runs_of_fresh.
Qed.

(** The experiment that gets the run is in the table the call leaves. *)
Lemma resolved_target_in (name sample : string) (w : World) :
  In (resolved_target name sample w)
     (map row_exp_id (resolved_rows name sample w)).
Proof.
  destruct (resolved_rows_spec name sample w) as (_ & _ & Hk).
  unfold resolved_target.
  destruct (runs_of (resolved_id name sample w) w); [|exact Hk].
  apply list_max_in. intros Hnil. rewrite Hnil in Hk. destruct Hk.
Qed.

Lemma runs_of_app (k : nat) (w : World) (d : DataSet) :
  filter (fun x => Nat.eqb (run_exp_id x) k) (runs w ++ [d])
  = runs_of k w ++ (if Nat.eqb (run_exp_id d) k then [d] else []).
Proof. unfold runs_of. rewrite filter_app. reflexivity. Qed.

Lemma do_experiment_store (base_path name sample : string)
    (setup : list Callback) (sweep : Sweep) (cleanup : list Callback)
    (axes : option (list (string * list string))) (fmt : option (list string))
    (w : World) :
  parse_base_path base_path = (name, sample) ->
  consistent w ->
  let k := resolved_id name sample w in
  let t := resolved_target name sample w in
  let e := resolved_experiment name sample w in
  let path := (base_path ++ "/" ++ PyStr.str (length (runs_of k w)))%string in
  let w' := snd (do_experiment base_path setup sweep cleanup axes fmt w) in
  fst (do_experiment base_path setup sweep cleanup axes fmt w)
  = select (results_lookup path (S (length (runs w))) (recorded_run w t sweep) e
              (build_measurement e setup sweep cleanup axes))
           (default_format fmt)
  /\ experiments w' = map (bump_counter t) (resolved_rows name sample w)
  /\ runs w' = runs w ++ [recorded_run w t sweep]
  /\ db_location w' = db_location w.
Proof.
  intros Hp Hcons k t e path w'.
  pose proof Hcons as (Hb & Hc & Hidle).
  destruct (resolve_experiment_eq name sample w) as (w1 & Hres & Hrows & Hruns & Hloc).
  fold e in Hres.
  destruct (resolve_experiment_returns name sample w)
    as (e' & w1' & r & Hres' & Hr & _).
  rewrite Hres in Hres'. injection Hres' as <- <-.
  assert (Hek : exp_id e = k) by apply resolved_experiment_id.
  (* the counter read is the number of runs of the experiment *)
  assert (Hcount : run_counter r = length (runs_of k w)).
  { pose proof Hr as Hr0. unfold find_row in Hr0.
    apply find_some in Hr0 as [Hin Hid].
    apply Nat.eqb_eq in Hid. rewrite Hrows in Hin. rewrite Hek in Hid.
    rewrite <- Hid. now apply (resolved_counter name sample). }
  set (m := build_measurement e setup sweep cleanup axes).
  assert (Ht : run_target (exp m) (emit [ReadLastCounter e] w1) = t).
  { subst m. rewrite exp_build_measurement.
    exact (run_target_resolved name sample w (emit [ReadLastCounter e] w1)
             Hrows Hruns). }
  assert (Hstored :
            runs (world_after_run m (sweep_rows sweep) (emit [ReadLastCounter e] w1))
            = runs w ++ [recorded_run w t sweep]).
  { unfold world_after_run. cbv zeta. rewrite Ht. simpl runs.
    rewrite add_rows_last, Hruns.
    subst m. rewrite build_measurement_eq. simpl.
    rewrite add_rows_untouched; [reflexivity|].
    intros d Hd. apply Hidle in Hd. lia. }
  assert (Hfind :
            find (fun d => Nat.eqb (run_id d) (S (length (runs w1))))
                 (runs (world_after_run m (sweep_rows sweep)
                          (emit [ReadLastCounter e] w1)))
            = Some (recorded_run w t sweep)).
  { rewrite Hstored, Hruns. apply find_app_fresh.
    - intros d Hd. apply Hidle in Hd. apply Nat.eqb_neq. lia.
    - simpl. apply Nat.eqb_refl. }
  assert (Hdo : do_experiment base_path setup sweep cleanup axes fmt w
                = run_measurement base_path e setup sweep
                                  cleanup axes (default_format fmt) w1).
  { unfold do_experiment. rewrite Hp. now rewrite (bind_return _ _ _ _ _ Hres). }
  subst w'. rewrite Hdo.
  rewrite (run_measurement_eq base_path e setup sweep
             cleanup axes (default_format fmt) w1 r (recorded_run w t sweep)
             Hr Hfind).
  fold m. rewrite Hcount, Hruns. simpl fst. simpl snd.
  split; [reflexivity|]. split.
  { unfold printed, world_after_run. cbv zeta. simpl experiments.
    rewrite Ht. simpl. now rewrite Hrows. }
  split; [exact Hstored|]. simpl. exact Hloc.
Qed.

(** The last experiment of the table [resolve_experiment] leaves. *)
Lemma resolved_rows_last (name sample : string) (w : World) :
  list_max (map row_exp_id (resolved_rows name sample w))
  = if Nat.eqb (length (lookup name sample w)) 1
    then last_exp_id w else fresh_exp_id w.
Proof.
  unfold resolved_rows, last_exp_id.
  destruct (lookup name sample w) as [|r [|r' rest]]; simpl Nat.eqb; cbv iota;
    try reflexivity;
    rewrite map_app, list_max_app; simpl; unfold fresh_exp_id; lia.
Qed.

(** X8: in a consistent store [do_experiment] leaves every stored run
    as it was and appends exactly one run, with the next run id, the
    parameters of the sweep and the rows of the sweep in order.  The run
    belongs to the resolved experiment when that one has runs already,
    and to the last experiment of the table otherwise (which is the
    resolved one when it has just been created).  That run and its id
    are what the call returns under [dataset] and [dataid], and the
    experiments table grows by one row exactly when the lookup did not
    find exactly one experiment. *)
Theorem do_experiment_appends_one_run (base_path : string)
    (setup : list Callback) (sweep : Sweep) (cleanup : list Callback)
    (axes : option (list (string * list string))) (w : World) :
  consistent w ->
  let name := fst (parse_base_path base_path) in
  let sample := snd (parse_base_path base_path) in
  let found := Nat.eqb (length (lookup name sample w)) 1 in
  let k := resolved_id name sample w in
  let t := match runs_of k w with
           | _ :: _ => k
           | [] => if found then last_exp_id w else fresh_exp_id w
           end in
  (forall fmt,
     let w' := snd (do_experiment base_path setup sweep cleanup axes fmt w) in
     runs w' = runs w ++ [recorded_run w t sweep]
     /\ length (experiments w')
        = length (experiments w) + (if found then 0 else 1))
  /\ fst (do_experiment base_path setup sweep cleanup axes
                        (Some ["dataset"; "dataid"]) w)
     = Return [DataSetItem (recorded_run w t sweep);
               DataIdItem (S (length (runs w)))]
  /\ (found = false -> t = k).
Proof.
  intros Hcons name sample found k t.
  assert (Hp : parse_base_path base_path = (name, sample))
    by (subst name sample; now destruct (parse_base_path base_path)).
  assert (Ht : resolved_target name sample w = t).
  { unfold resolved_target. fold k. subst t found.
    destruct (runs_of k w); [apply resolved_rows_last|reflexivity]. }
  split; [|split].
  - intros fmt w'.
    destruct (do_experiment_store base_path name sample setup sweep cleanup
                axes fmt w Hp Hcons) as (_ & Hexp & Hruns & _).
    rewrite Ht in Hexp, Hruns.
    split; [exact Hruns|].
    subst w'. rewrite Hexp, length_map. subst found. unfold resolved_rows.
    destruct (lookup name sample w) as [|r0 [|r1 rest]]; simpl;
      rewrite ?length_app; simpl; lia.
  - destruct (do_experiment_store base_path name sample setup sweep cleanup
                axes (Some ["dataset"; "dataid"]) w Hp Hcons) as (Hout & _).
    rewrite Hout, Ht. reflexivity.
  - intros Hfound. subst t. rewrite Hfound.
    assert (Hk : k = fresh_exp_id w).
    { subst k found. unfold resolved_id.
      destruct (lookup name sample w) as [|r0 [|r1 rest]];
        [reflexivity | discriminate Hfound | reflexivity]. }
    now destruct (runs_of k w).
Qed.

Lemma do_experiment_appends_one_run_witness :
  fst (do_experiment "cool_experiment/my_sample" no_callback example_sweep
                     no_callback None (Some ["dataset"; "dataid"]) empty_world)
  = Return [DataSetItem (recorded_run empty_world 1 example_sweep);
            DataIdItem 1].
Proof.
  apply (do_experiment_appends_one_run "cool_experiment/my_sample" no_callback
           example_sweep no_callback None empty_world).
  split; [|split]; simpl; intros ? [].
Defined.

(** X9: [get_results_from_db_path] only reads: whatever the path and
    the flags, and whether it returns or raises, the experiments, the
    runs, the configured location and the printed output are as
    before. *)
Theorem get_results_reads_only (db_path : string) (as_dict flatten : bool)
    (w : World) :
  let w' := snd (get_results_from_db_path db_path as_dict flatten w) in
  experiments w' = experiments w
  /\ runs w' = runs w
  /\ db_location w' = db_location w
  /\ stdout w' = stdout w.
Proof.
  cbv zeta. unfold get_results_from_db_path, bind, lift.
  destruct (decode_db_path db_path) as [[[name n] sample]|err]; [|repeat split].
  destruct (Nat.eq_dec (length (lookup name sample w)) 1) as [H1 | H1].
  - destruct (lookup name sample w) as [|r [|r' rest]] eqn:El;
      try discriminate H1.
    rewrite (fetch_run_single _ _ _ _ _ _ _ El). repeat split.
  - rewrite (fetch_run_not_single _ _ _ _ _ _ H1). repeat split.
Qed.

(** ** Invariants of the store *)

Lemma identity_bumped (k : nat) (name sample : string) (l : list ExperimentRow) :
  filter (same_identity name sample) (map (bump_counter k) l)
  = map (bump_counter k) (filter (same_identity name sample) l).
Proof.
  induction l as [|r l IH]; simpl; [reflexivity|].
  assert (Hm : same_identity name sample (bump_counter k r)
               = same_identity name sample r).
  { unfold same_identity. destruct (bump_counter_id k r) as (_ & -> & ->).
    reflexivity. }
  rewrite Hm. destruct (same_identity name sample r); simpl; now rewrite IH.
Qed.

(** With a sample name that is not empty the lookup compares both
    names. *)
Lemma lookup_nonempty_sample (name sample : string) (w : World) :
  sample <> EmptyString ->
  lookup name sample w = filter (same_identity name sample) (experiments w).
Proof.
  intros Hs. unfold lookup. apply filter_ext. intros r.
  unfold matches, same_identity. destruct sample; [congruence|reflexivity].
Qed.

Lemma same_identity_eq (name sample : string) (r : ExperimentRow) :
  same_identity name sample r = true ->
  row_name r = name /\ row_sample_name r = sample.
Proof.
  unfold same_identity. intros H. apply andb_true_iff in H as [H1 H2].
  now apply String.eqb_eq in H1, H2.
Qed.

Lemma do_experiment_keeps_unique (base_path : string) (setup : list Callback)
    (sweep : Sweep) (cleanup : list Callback)
    (axes : option (list (string * list string))) (fmt : option (list string))
    (w : World) :
  snd (parse_base_path base_path) <> EmptyString ->
  unique_identities w ->
  unique_identities (snd (do_experiment base_path setup sweep cleanup axes fmt w)).
Proof.
  intros Hs Huniq n s.
  destruct (parse_base_path base_path) as [name sample] eqn:Hp. simpl in Hs.
  rewrite (do_experiment_experiments base_path name sample setup sweep cleanup
             axes fmt w Hp).
  rewrite identity_bumped, length_map.
  pose proof (Huniq n s) as Hns. pose proof (Huniq name sample) as Hown.
  rewrite <- (lookup_nonempty_sample name sample w Hs) in Hown.
  unfold resolved_rows.
  destruct (lookup name sample w) as [|r0 [|r1 rest]] eqn:El.
  - rewrite filter_app. simpl.
    destruct (same_identity n s (mkExperimentRow (fresh_exp_id w) name sample 0))
      eqn:Em.
    + apply same_identity_eq in Em as [E1 E2]. simpl in E1, E2. subst n s.
      rewrite <- (lookup_nonempty_sample name sample w Hs), El. simpl. lia.
    + rewrite length_app. simpl. lia.
  - exact Hns.
  - simpl in Hown. lia.
Qed.

Lemma do_experiment_keeps_consistent (base_path : string) (setup : list Callback)
    (sweep : Sweep) (cleanup : list Callback)
    (axes : option (list (string * list string))) (fmt : option (list string))
    (w : World) :
  consistent w ->
  consistent (snd (do_experiment base_path setup sweep cleanup axes fmt w)).
Proof.
  intros Hcons.
  destruct (parse_base_path base_path) as [name sample] eqn:Hp.
  destruct (do_experiment_store base_path name sample setup sweep cleanup axes
              fmt w Hp Hcons) as (_ & Hexp & Hruns & _).
  destruct (resolved_rows_spec name sample w) as (Hnew & Hold & _).
  pose proof (resolved_target_in name sample w) as Ht.
  set (t := resolved_target name sample w) in *.
  set (w' := snd (do_experiment base_path setup sweep cleanup axes fmt w)) in *.
  split; [|split].
  - intros r' Hin. rewrite Hexp in Hin. apply in_map_iff in Hin as (r & <- & Hin).
    destruct (bump_counter_id t r) as (Hid & _). rewrite Hid.
    unfold runs_of at 1. rewrite Hruns, runs_of_app. simpl run_exp_id.
    rewrite length_app.
    rewrite <- (resolved_counter name sample w r Hcons Hin).
    unfold bump_counter. rewrite Nat.eqb_sym.
    destruct (Nat.eqb t (row_exp_id r)); simpl; lia.
  - intros d Hin. rewrite Hruns in Hin. rewrite Hexp, map_map.
    assert (Hids : map (fun r => row_exp_id (bump_counter t r))
                       (resolved_rows name sample w)
                   = map row_exp_id (resolved_rows name sample w)).
    { apply map_ext. intros r. apply bump_counter_id. }
    rewrite Hids.
    apply in_app_or in Hin as [Hin | [<- | []]].
    + destruct Hcons as (_ & Hc & _). apply Hc in Hin.
      apply in_map_iff in Hin as (r & <- & Hr). apply in_map. now apply Hold.
    + exact Ht.
  - intros d Hin. rewrite Hruns in *. rewrite length_app. simpl.
    apply in_app_or in Hin as [Hin | [<- | []]].
    + destruct Hcons as (_ & _ & Hd). apply Hd in Hin. lia.
    + simpl. lia.
Qed.

Lemma empty_world_invariants : unique_identities empty_world /\ consistent empty_world.
Proof.
  split.
  - intros n s. simpl. lia.
  - split; [|split]; simpl; intros ? [].
Qed.

(** X10: [do_experiment] called with a base path whose sample name is
    not empty keeps experiment identities unique: if no two experiments
    share name and sample name before the call, none do after it.  So
    in any store built from the empty one by such calls, a lookup with a
    sample name that is not empty finds at most one experiment. *)
Theorem identities_stay_unique :
  (forall base_path setup sweep cleanup axes fmt w,
     snd (parse_base_path base_path) <> EmptyString ->
     unique_identities w ->
     unique_identities
       (snd (do_experiment base_path setup sweep cleanup axes fmt w)))
  /\ (forall calls w,
        Forall (fun c => snd (parse_base_path (call_base_path c)) <> EmptyString)
               calls ->
        unique_identities w -> unique_identities (after_calls calls w))
  /\ forall calls name sample,
       Forall (fun c => snd (parse_base_path (call_base_path c)) <> EmptyString)
              calls ->
       sample <> EmptyString ->
       length (lookup name sample (after_calls calls empty_world)) <= 1.
Proof.
  assert (Hall : forall calls w,
             Forall (fun c => snd (parse_base_path (call_base_path c))
                              <> EmptyString) calls ->
             unique_identities w -> unique_identities (after_calls calls w)).
  { induction calls as [|c calls IH]; intros w Hc Hw; simpl; [exact Hw|].
    inversion Hc as [|? ? Hhead Htail]; subst.
    apply IH; [exact Htail|].
    now apply do_experiment_keeps_unique. }
  split; [exact do_experiment_keeps_unique|]. split; [exact Hall|].
  intros calls name sample Hc Hs.
  rewrite (lookup_nonempty_sample name sample _ Hs).
  apply (Hall calls empty_world Hc). apply empty_world_invariants.
Qed.

(** A base path that ends in a slash has the empty sample name, which is
    looked up by experiment name alone: after [a/] and [a/x], a second
    [a/] finds two experiments named [a] and creates a third, with the
    identity of the first. *)
Lemma empty_sample_breaks_uniqueness :
  map (fun r => (row_exp_id r, row_name r, row_sample_name r))
      (experiments
         (after_calls
            [mkCall "a/" [] (mkSweep [] []) [] None None;
             mkCall "a/x" [] (mkSweep [] []) [] None None;
             mkCall "a/" [] (mkSweep [] []) [] None None]
            empty_world))
  = [(1, "a", EmptyString); (2, "a", "x"); (3, "a", EmptyString)].
Proof. vm_compute. reflexivity. Qed.

(** X11: [do_experiment] keeps the store consistent: afterwards every
    run counter is still the number of runs of its experiment, every run
    belongs to an experiment of the table, and run ids stay within the
    number of runs.  Every store built from the empty one by calls of
    [do_experiment] is consistent. *)
Theorem store_stays_consistent :
  (forall base_path setup sweep cleanup axes fmt w,
     consistent w ->
     consistent (snd (do_experiment base_path setup sweep cleanup axes fmt w)))
  /\ (forall calls w, consistent w -> consistent (after_calls calls w))
  /\ forall calls r,
       In r (experiments (after_calls calls empty_world)) ->
       run_counter r
       = length (runs_of (row_exp_id r) (after_calls calls empty_world)).
Proof.
  assert (Hall : forall calls w, consistent w -> consistent (after_calls calls w)).
  { induction calls as [|c calls IH]; intros w Hw; simpl; [exact Hw|].
    apply IH. apply do_experiment_keeps_consistent. exact Hw. }
  split; [exact do_experiment_keeps_consistent|]. split; [exact Hall|].
  intros calls. apply (Hall calls empty_world). apply empty_world_invariants.
Qed.

(** ** Storing and fetching *)

Lemma py_index_last {A} (l : list A) (x : A) :
  py_index (l ++ [x]) (Z.of_nat (length l)) = Some x.
Proof.
  unfold py_index.
  destruct (Z.leb_spec 0 (Z.of_nat (length l))) as [_|]; [|lia].
  rewrite Nat2Z.id, nth_error_app2, Nat.sub_diag by lia. reflexivity.
Qed.

Lemma matches_own_row (name sample : string) (k c : nat) :
  matches name sample (mkExperimentRow k name sample c) = true.
Proof.
  unfold matches. simpl. rewrite String.eqb_refl.
  destruct sample; [reflexivity|apply String.eqb_refl].
Qed.

Lemma lookup_after_resolve (name sample : string) (w : World) :
  length (lookup name sample w) <= 1 ->
  exists r,
    filter (matches name sample) (resolved_rows name sample w) = [r]
    /\ row_exp_id r = resolved_id name sample w.
Proof.
  unfold resolved_rows, resolved_id, lookup.
  destruct (filter (matches name sample) (experiments w)) as [|r0 [|r1 rest]] eqn:El;
    intros Hlen.
  - exists (mkExperimentRow (fresh_exp_id w) name sample 0).
    rewrite filter_app, El. simpl. now rewrite matches_own_row.
  - exists r0. now rewrite El.
  - simpl in Hlen. lia.
Qed.

Lemma lookup_after_do_experiment (base_path name sample : string)
    (setup : list Callback) (sweep : Sweep) (cleanup : list Callback)
    (axes : option (list (string * list string))) (fmt : option (list string))
    (w : World) :
  parse_base_path base_path = (name, sample) ->
  length (lookup name sample w) <= 1 ->
  exists r,
    lookup name sample
           (snd (do_experiment base_path setup sweep cleanup axes fmt w)) = [r]
    /\ row_exp_id r = resolved_id name sample w.
Proof.
  intros Hp Hlen. unfold lookup at 1.
  rewrite (do_experiment_experiments base_path name sample setup sweep cleanup
             axes fmt w Hp), lookup_bumped.
  destruct (lookup_after_resolve name sample w Hlen) as (r & -> & Hid).
  exists (bump_counter (resolved_target name sample w) r). split; [reflexivity|].
  destruct (bump_counter_id (resolved_target name sample w) r) as (-> & _).
  exact Hid.
Qed.

(** When the run of a call goes to the resolved experiment: when the
    call creates it, when it has runs already, or when it is the last
    experiment of the table. *)
Lemma resolved_target_own (name sample : string) (w : World) :
  length (lookup name sample w) <= 1 ->
  lookup name sample w = []
  \/ runs_of (resolved_id name sample w) w <> []
  \/ resolved_id name sample w = last_exp_id w ->
  resolved_target name sample w = resolved_id name sample w.
Proof.
  intros Hlen Hown. unfold resolved_target.
  destruct (runs_of (resolved_id name sample w) w) eqn:Eruns; [|reflexivity].
  rewrite resolved_rows_last. unfold resolved_id in *.
  destruct (lookup name sample w) as [|r [|r' rest]] eqn:El; simpl.
  - reflexivity.
  - destruct Hown as [H | [H | H]]; [discriminate | congruence | now rewrite H].
  - simpl in Hlen. lia.
Qed.

Lemma resolved_target_other (name sample : string) (w : World) (r : ExperimentRow) :
  lookup name sample w = [r] ->
  runs_of (row_exp_id r) w = [] ->
  resolved_target name sample w = last_exp_id w.
Proof.
  intros Hl Hruns. unfold resolved_target, resolved_id.
  rewrite Hl, Hruns, resolved_rows_last, Hl. reflexivity.
Qed.

(** X12: storing and fetching.  In a consistent store where at most one
    experiment has the identity, [do_experiment] on the base path [c/s]
    ([c] without slash) returns a locator.  When the experiment is
    created by the call, has runs already or is the last of the table,
    [get_results_from_db_path] on that locator, run on the store the
    call leaves, returns exactly the run just recorded: the parameters
    and the rows of the sweep, as a data set or as the mapping made from
    it.  When the experiment existed without runs and is not the last
    of the table, the run went to the last experiment and the same
    retrieval raises [IndexError]. *)
Theorem store_then_fetch (c s : string) (setup : list Callback) (sweep : Sweep)
    (cleanup : list Callback) (axes : option (list (string * list string)))
    (w : World) :
  PyStr.contains PyStr.slash c = false ->
  consistent w ->
  length (lookup c s w) <= 1 ->
  let call := do_experiment (c ++ "/" ++ s) setup sweep cleanup axes None w in
  let k := resolved_id c s w in
  exists locator,
    fst call = Return [PathItem locator]
    /\ (lookup c s w = [] \/ runs_of k w <> [] \/ k = last_exp_id w ->
        forall as_dict flatten,
          fst (get_results_from_db_path locator as_dict flatten (snd call))
          = Return (fetched as_dict flatten (recorded_run w k sweep)))
    /\ (lookup c s w <> [] -> runs_of k w = [] -> k <> last_exp_id w ->
        forall as_dict flatten,
          fst (get_results_from_db_path locator as_dict flatten (snd call))
          = Raise (IndexError "list index out of range")).
Proof.
  intros Hc Hcons Hlen call k.
  pose proof (parse_base_path_joined c s Hc) as Hp.
  destruct (do_experiment_store (c ++ "/" ++ s) c s setup sweep cleanup axes None
              w Hp Hcons) as (Hout & _ & Hruns & _).
  fold k in Hout. fold call in Hout, Hruns.
  exists ((c ++ "/" ++ s) ++ "/" ++ PyStr.str (length (runs_of k w)))%string.
  split; [rewrite Hout; reflexivity|].
  assert (Hdec : decode_db_path
                   ((c ++ "/" ++ s) ++ "/" ++ PyStr.str (length (runs_of k w)))
                 = Return (c, Z.of_nat (length (runs_of k w)), s)).
  { rewrite append_assoc. apply (decode_db_path_encoded c s _ Hc). }
  destruct (lookup_after_do_experiment (c ++ "/" ++ s) c s setup sweep cleanup
              axes None w Hp Hlen) as (r & Hl & Hid).
  fold call in Hl. fold k in Hid.
  assert (Hfetch : forall as_dict flatten,
             fst (get_results_from_db_path
                    ((c ++ "/" ++ s) ++ "/" ++ PyStr.str (length (runs_of k w)))
                    as_dict flatten (snd call))
             = match py_index
                       (runs_of k w
                        ++ (if Nat.eqb (resolved_target c s w) k
                            then [recorded_run w (resolved_target c s w) sweep]
                            else []))
                       (Z.of_nat (length (runs_of k w))) with
               | None => Raise (IndexError "list index out of range")
               | Some d => Return (fetched as_dict flatten d)
               end).
  { intros as_dict flatten.
    rewrite (get_results_decoded _ _ _ _ _ _ Hdec).
    rewrite (fetch_run_single _ _ _ _ _ _ _ Hl). simpl fst.
    rewrite Hid. unfold runs_of at 1. rewrite Hruns, runs_of_app.
    reflexivity. }
  split.
  - intros Hown as_dict flatten. rewrite Hfetch.
    rewrite (resolved_target_own c s w Hlen Hown). fold k.
    now rewrite Nat.eqb_refl, py_index_last.
  - intros Hne Hnone Hlast as_dict flatten. rewrite Hfetch.
    assert (Ht : resolved_target c s w = last_exp_id w).
    { destruct (lookup c s w) as [|r0 [|r1 rest]] eqn:El;
        [congruence | | simpl in Hlen; lia].
      apply (resolved_target_other c s w r0 El).
      subst k. unfold resolved_id in Hnone. now rewrite El in Hnone. }
    rewrite Ht. apply Nat.eqb_neq in Hlast. rewrite Nat.eqb_sym in Hlast.
    rewrite Hlast, Hnone. reflexivity.
Qed.

Lemma store_then_fetch_witness :
  exists locator,
    fst (do_experiment ("cool_experiment" ++ "/" ++ "my_sample") no_callback
                       example_sweep no_callback None None empty_world)
    = Return [PathItem locator]
    /\ forall as_dict flatten,
         fst (get_results_from_db_path locator as_dict flatten
                (snd (do_experiment ("cool_experiment" ++ "/" ++ "my_sample")
                        no_callback example_sweep no_callback None None
                        empty_world)))
         = Return (fetched as_dict flatten
                     (recorded_run empty_world
                        (resolved_id "cool_experiment" "my_sample" empty_world)
                        example_sweep)).
Proof.
  destruct (store_then_fetch "cool_experiment" "my_sample" no_callback
              example_sweep no_callback None empty_world)
    as (locator & Hloc & Hown & _).
  - reflexivity.
  - split; [|split]; simpl; intros ? [].
  - simpl. lia.
  - exists locator. split; [exact Hloc|]. apply Hown. left. reflexivity.
Defined.

(** A run that goes astray: the experiment [A/sa] exists without runs
    and [B/sb] was created after it.  The run of [do_experiment] on
    [A/sa] is stored under [B/sb], and the locator returned does not
    fetch it. *)
Lemma stray_run_example :
  let w := mkWorld [mkExperimentRow 1 "A" "sa" 0; mkExperimentRow 2 "B" "sb" 0]
                   [] "experiments.db" [] [] in
  let call := do_experiment "A/sa" [] example_sweep [] None None w in
  consistent w
  /\ fst call = Return [PathItem "A/sa/0"]
  /\ map (fun r => (row_exp_id r, run_counter r)) (experiments (snd call))
     = [(1, 0); (2, 1)]
  /\ map run_exp_id (runs (snd call)) = [2]
  /\ fst (get_results_from_db_path "A/sa/0" false false (snd call))
     = Raise (IndexError "list index out of range")
  /\ fst (do_experiment "A/sa" [] example_sweep [] None None (snd call))
     = Return [PathItem "A/sa/0"].
Proof.
  cbv zeta. split.
  - split; [|split]; simpl.
    + intros r [<- | [<- | []]]; reflexivity.
    + intros d [].
    + intros d [].
  - repeat split; vm_compute; reflexivity.
Qed.

(** X13: the counters of successive runs.  In a consistent store where
    at most one experiment has the identity of the base path, two calls
    of [do_experiment] with that base path, one after the other, return
    locators with the counters [n] and [n + 1], [n] being the number of
    runs the experiment had before the first call, provided the
    experiment is created by the first call, has runs already or is the
    last of the table.  Otherwise the first run went to the last
    experiment and the second call returns the counter [n] again. *)
Theorem successive_locators (base_path : string)
    (setup1 setup2 : list Callback) (sweep1 sweep2 : Sweep)
    (cleanup1 cleanup2 : list Callback)
    (axes1 axes2 : option (list (string * list string))) (w : World) :
  consistent w ->
  length (lookup (fst (parse_base_path base_path))
                 (snd (parse_base_path base_path)) w) <= 1 ->
  let name := fst (parse_base_path base_path) in
  let sample := snd (parse_base_path base_path) in
  let k := resolved_id name sample w in
  let first_call :=
    do_experiment base_path setup1 sweep1 cleanup1 axes1 None w in
  let second_call :=
    do_experiment base_path setup2 sweep2 cleanup2 axes2 None (snd first_call) in
  exists n,
    n = length (runs_of k w)
    /\ fst first_call = Return [PathItem (base_path ++ "/" ++ PyStr.str n)]
    /\ (lookup name sample w = [] \/ runs_of k w <> [] \/ k = last_exp_id w ->
        fst second_call
        = Return [PathItem (base_path ++ "/" ++ PyStr.str (S n))])
    /\ (lookup name sample w <> [] -> runs_of k w = [] -> k <> last_exp_id w ->
        fst second_call = Return [PathItem (base_path ++ "/" ++ PyStr.str n)]).
Proof.
  intros Hcons Hlen name sample k first_call second_call.
  assert (Hp : parse_base_path base_path = (name, sample))
    by (subst name sample; now destruct (parse_base_path base_path)).
  fold name sample in Hlen.
  destruct (do_experiment_store base_path name sample setup1 sweep1 cleanup1
              axes1 None w Hp Hcons) as (Hout1 & _ & Hruns1 & _).
  fold first_call in Hout1, Hruns1. fold k in Hout1.
  pose proof (do_experiment_keeps_consistent base_path setup1 sweep1 cleanup1
                axes1 None w Hcons) as Hcons1.
  fold first_call in Hcons1.
  destruct (do_experiment_store base_path name sample setup2 sweep2 cleanup2
              axes2 None (snd first_call) Hp Hcons1) as (Hout2 & _).
  fold second_call in Hout2.
  destruct (lookup_after_do_experiment base_path name sample setup1 sweep1
              cleanup1 axes1 None w Hp Hlen) as (r & Hl & Hid).
  fold first_call in Hl. fold k in Hid.
  assert (Hk : resolved_id name sample (snd first_call) = k).
  { unfold resolved_id at 1. now rewrite Hl. }
  assert (Hcount : length (runs_of k (snd first_call))
                   = length (runs_of k w)
                     + (if Nat.eqb (resolved_target name sample w) k then 1 else 0)).
  { unfold runs_of at 1. rewrite Hruns1, runs_of_app, length_app.
    simpl run_exp_id. now destruct (Nat.eqb (resolved_target name sample w) k). }
  exists (length (runs_of k w)).
  split; [reflexivity|]. split; [rewrite Hout1; reflexivity|].
  rewrite Hout2. simpl select. rewrite Hk, Hcount. split.
  - intros Hown. rewrite (resolved_target_own name sample w Hlen Hown). fold k.
    rewrite Nat.eqb_refl, Nat.add_1_r. reflexivity.
  - intros Hne Hnone Hlast.
    assert (Ht : resolved_target name sample w = last_exp_id w).
    { destruct (lookup name sample w) as [|r0 [|r1 rest]] eqn:El;
        [congruence | | simpl in Hlen; lia].
      apply (resolved_target_other name sample w r0 El).
      subst k. unfold resolved_id in Hnone. now rewrite El in Hnone. }
    rewrite Ht. apply Nat.eqb_neq in Hlast. rewrite Nat.eqb_sym in Hlast.
    rewrite Hlast, Nat.add_0_r. reflexivity.
Qed.

Lemma successive_locators_witness :
  exists n,
    fst (do_experiment "cool_experiment/my_sample" no_callback example_sweep
                       no_callback None None empty_world)
    = Return [PathItem ("cool_experiment/my_sample" ++ "/" ++ PyStr.str n)]
    /\ fst (do_experiment "cool_experiment/my_sample" no_callback example_sweep
                          no_callback None None
                          (snd (do_experiment "cool_experiment/my_sample"
                                  no_callback example_sweep no_callback None None
                                  empty_world)))
       = Return [PathItem ("cool_experiment/my_sample" ++ "/" ++ PyStr.str (S n))].
Proof.
  destruct (successive_locators "cool_experiment/my_sample" no_callback
              no_callback example_sweep example_sweep no_callback no_callback
              None None empty_world)
    as (n & _ & H1 & H2 & _).
  - split; [|split]; simpl; intros ? [].
  - simpl. lia.
  - exists n. split; [exact H1|]. apply H2. left. reflexivity.
Defined.

(** X14: the flags of [get_results_from_db_path] decide only the form of
    the result.  A call raises with some flags exactly when it raises
    with any others, with the same exception; and when it returns the
    run [d] as a data set, asking for the mapping returns
    [dataset_to_dict] of that same run. *)
Theorem flags_only_shape_the_result (db_path : string) (flatten : bool)
    (w : World) :
  (forall e as_dict flatten',
     fst (get_results_from_db_path db_path false flatten w) = Raise e ->
     fst (get_results_from_db_path db_path as_dict flatten' w) = Raise e)
  /\ (forall d,
        fst (get_results_from_db_path db_path false flatten w)
        = Return (AsDataSet d) ->
        fst (get_results_from_db_path db_path true flatten w)
        = Return (AsDict (dataset_to_dict d flatten)))
  /\ ((exists e, fst (get_results_from_db_path db_path false flatten w) = Raise e)
      \/ (exists d, fst (get_results_from_db_path db_path false flatten w)
                    = Return (AsDataSet d))).
Proof.
  unfold get_results_from_db_path, bind, lift.
  destruct (decode_db_path db_path) as [[[name n] sample]|err].
  - destruct (Nat.eq_dec (length (lookup name sample w)) 1) as [H1 | H1].
    + destruct (lookup name sample w) as [|r [|r' rest]] eqn:El;
        try discriminate H1.
      rewrite !(fetch_run_single _ _ _ _ _ _ _ El).
      destruct (py_index (runs_of (row_exp_id r) w) n) as [d|] eqn:Ep; simpl.
      * split; [discriminate|]. split; [|right; eauto].
        intros d' [= <-]. reflexivity.
      * split.
        { intros e as_dict flatten' He.
          rewrite (fetch_run_single _ _ _ _ _ _ _ El), Ep. exact He. }
        split; [discriminate|left; eauto].
    + rewrite !(fetch_run_not_single _ _ _ _ _ _ H1). simpl.
      split.
      { intros e as_dict flatten' He.
        rewrite (fetch_run_not_single _ _ _ _ _ _ H1). exact He. }
      split; [discriminate|left; eauto].
  - simpl. split; [auto|]. split; [discriminate|left; eauto].
Qed.


(** X15: the calls [do_experiment] makes into the framework, in order.
    First the lookup under the parsed names; if it does not find exactly
    one experiment, the initialisation of the database at the configured
    location and then the creation under the same names; then the
    counter read, the setup callbacks, the creation of the run, one
    [add_result] per row and the cleanup callbacks.  The experiment
    handed over, and returned under [experiment], is the loaded one with
    its [id] set from its [exp_id], or the created one, which has no
    [id]. *)
Theorem framework_call_sequence (base_path : string) (setup : list Callback)
    (sweep : Sweep) (cleanup : list Callback)
    (axes : option (list (string * list string))) (w : World) :
  let name := fst (parse_base_path base_path) in
  let sample := snd (parse_base_path base_path) in
  let e := match lookup name sample w with
           | [r] => mkExperiment (row_exp_id r) (Some (row_exp_id r))
           | _ => mkExperiment (fresh_exp_id w) None
           end in
  fst (do_experiment base_path setup sweep cleanup axes (Some ["experiment"]) w)
  = Return [ExperimentItem e]
  /\ forall fmt,
       trace (snd (do_experiment base_path setup sweep cleanup axes fmt w))
       = trace w
         ++ CallLoadExperimentByName name sample
         :: (if Nat.eqb (length (lookup name sample w)) 1 then []
             else [CallDataSet (db_location w); CallNewExperiment name sample])
         ++ [ReadLastCounter e] ++ map CallBeforeRun setup
         ++ [CallCreateRun e]
         ++ map CallAddResult (sweep_rows sweep)
         ++ map CallAfterRun cleanup.
Proof.
  intros name sample e.
  change e with (resolved_experiment name sample w).
  destruct (do_experiment_measurement base_path setup sweep cleanup axes w)
    as (e' & w1 & Hres & _ & Htrace).
  fold name sample in Hres.
  destruct (resolve_experiment_eq name sample w) as (w1' & Hres' & _).
  rewrite Hres in Hres'. injection Hres' as He' _. subst e'.
  assert (Hw1 : trace w1
                = trace w
                  ++ CallLoadExperimentByName name sample
                  :: (if Nat.eqb (length (lookup name sample w)) 1 then []
                      else [CallDataSet (db_location w);
                            CallNewExperiment name sample])).
  { destruct (Nat.eq_dec (length (lookup name sample w)) 1) as [H1 | H1].
    - rewrite H1. simpl.
      destruct (lookup name sample w) as [|r [|r' rest]] eqn:El;
        try discriminate H1.
      rewrite (resolve_experiment_found _ _ _ _ El) in Hres.
      apply (f_equal snd) in Hres. simpl in Hres. now rewrite <- Hres.
    - apply Nat.eqb_neq in H1 as H1'. rewrite H1'.
      rewrite (resolve_experiment_created _ _ _ H1) in Hres.
      apply (f_equal snd) in Hres. simpl in Hres. now rewrite <- Hres. }
  split.
  - destruct (do_experiment_spec base_path setup sweep cleanup axes w)
      as (e2 & w2 & r & old & d & Hres2 & _ & _ & _ & _ & Hdo).
    fold name sample in Hres2. rewrite Hres in Hres2. injection Hres2 as <- <-.
    rewrite Hdo. reflexivity.
  - intros fmt. rewrite Htrace, Hw1. rewrite <- app_assoc. reflexivity.
Qed.

Lemma py_index_app_nonneg {A} (l l' : list A) (n : Z) (x : A) :
  (0 <= n)%Z -> py_index l n = Some x -> py_index (l ++ l') n = Some x.
Proof.
  unfold py_index. intros Hn.
  destruct (Z.leb_spec 0 n) as [_|]; [|lia].
  intros H. rewrite nth_error_app1; [exact H|].
  apply nth_error_Some. congruence.
Qed.

Lemma matches_nonempty_sample (name sample : string) (r : ExperimentRow) :
  sample <> EmptyString ->
  matches name sample r = true ->
  row_name r = name /\ row_sample_name r = sample.
Proof.
  intros Hs H. apply same_identity_eq.
  unfold matches in H. unfold same_identity.
  destruct sample; [congruence|exact H].
Qed.

Lemma get_results_after_call (db_path name sample : string) (n : Z)
    (as_dict flatten : bool) (w : World) (x : Fetched) (c : Call) :
  consistent w ->
  decode_db_path db_path = Return (name, n, sample) ->
  sample <> EmptyString ->
  (0 <= n)%Z ->
  fst (get_results_from_db_path db_path as_dict flatten w) = Return x ->
  fst (get_results_from_db_path db_path as_dict flatten (after_call w c))
  = Return x.
Proof.
  intros Hcons Hd Hs Hn. rewrite !(get_results_decoded _ _ _ _ _ _ Hd).
  destruct (Nat.eq_dec (length (lookup name sample w)) 1) as [H1 | H1];
    [|rewrite (fetch_run_not_single _ _ _ _ _ _ H1); discriminate].
  destruct (lookup name sample w) as [|r [|r' rest]] eqn:El; try discriminate H1.
  rewrite (fetch_run_single _ _ _ _ _ _ _ El). simpl fst.
  destruct (py_index (runs_of (row_exp_id r) w) n) as [d|] eqn:Ep; [|discriminate].
  intros [= <-].
  unfold after_call.
  destruct (parse_base_path (call_base_path c)) as [name2 sample2] eqn:Hp.
  destruct (do_experiment_store (call_base_path c) name2 sample2 (call_setup c)
              (call_sweep c) (call_cleanup c) (call_axes c) (call_format c)
              w Hp Hcons) as (_ & Hexp & Hruns & _).
  set (w' := snd (do_experiment (call_base_path c) (call_setup c) (call_sweep c)
                    (call_cleanup c) (call_axes c) (call_format c) w)) in *.
  set (t2 := resolved_target name2 sample2 w) in *.
  assert (Hl : lookup name sample w' = [bump_counter t2 r]).
  { unfold lookup at 1. rewrite Hexp, lookup_bumped.
    assert (Hf : filter (matches name sample) (resolved_rows name2 sample2 w) = [r]).
    { unfold resolved_rows, lookup in *.
      destruct (filter (matches name2 sample2) (experiments w))
        as [|r2 [|r3 rest2]] eqn:El2; [|exact El|];
        rewrite filter_app, El; simpl;
        destruct (matches name sample
                    (mkExperimentRow (fresh_exp_id w) name2 sample2 0)) eqn:Em;
        try reflexivity;
        apply (matches_nonempty_sample _ _ _ Hs) in Em as [E1 E2];
        simpl in E1, E2; subst name2 sample2; congruence. }
    now rewrite Hf. }
  rewrite (fetch_run_single _ _ _ _ _ _ _ Hl). simpl fst.
  destruct (bump_counter_id t2 r) as (-> & _).
  unfold runs_of at 1. rewrite Hruns, runs_of_app.
  now rewrite (py_index_app_nonneg _ _ _ _ Hn Ep).
Qed.

(** X16: locators stay valid.  In a consistent store, whatever
    [get_results_from_db_path] returns for a path with a sample name
    that is not empty and a non-negative run number, it returns again
    after any further calls of [do_experiment], for whatever base paths
    and sweeps. *)
Theorem locators_stay_valid (db_path name sample : string) (n : Z)
    (as_dict flatten : bool) (w : World) (x : Fetched) (calls : list Call) :
  consistent w ->
  decode_db_path db_path = Return (name, n, sample) ->
  sample <> EmptyString ->
  (0 <= n)%Z ->
  fst (get_results_from_db_path db_path as_dict flatten w) = Return x ->
  fst (get_results_from_db_path db_path as_dict flatten (after_calls calls w))
  = Return x.
Proof.
  intros Hcons Hd Hs Hn. revert w Hcons.
  induction calls as [|c calls IH]; intros w Hcons Hx; simpl; [exact Hx|].
  apply IH.
  - apply do_experiment_keeps_consistent. exact Hcons.
  - now apply (get_results_after_call db_path name sample n).
Qed.

Lemma locators_stay_valid_witness :
  fst (get_results_from_db_path "cool_experiment/my_sample/0" false false
         (after_calls
            [mkCall "cool_experiment/my_sample" no_callback example_sweep
                    no_callback None None;
             mkCall "other" [] (mkSweep ["y"] []) [] None (Some ["dataid"])]
            world_after_example))
  = Return (AsDataSet (mkDataSet 1 1 ["x"; "m"] (sweep_rows example_sweep))).
Proof.
  apply (locators_stay_valid "cool_experiment/my_sample/0" "cool_experiment"
           "my_sample" 0%Z).
  - apply (do_experiment_keeps_consistent "cool_experiment/my_sample" no_callback
             example_sweep no_callback None (Some ["data_set_path"]) empty_world).
    split; [|split]; simpl; intros ? [].
  - reflexivity.
  - discriminate.
  - lia.
  - vm_compute. reflexivity.
Defined.

(** A locator without sample name is looked up by the name alone, and
    stops being valid when a second experiment of that name appears. *)
Lemma nameless_locator_example :
  let w := snd (do_experiment "cool_experiment" no_callback example_sweep
                              no_callback None None empty_world) in
  let w' := after_calls [mkCall "cool_experiment/my_sample" no_callback
                                example_sweep no_callback None None] w in
  consistent w
  /\ fst (get_results_from_db_path "cool_experiment/0" false false w)
     = Return (AsDataSet (mkDataSet 1 1 ["x"; "m"] (sweep_rows example_sweep)))
  /\ fst (get_results_from_db_path "cool_experiment/0" false false w')
     = Raise (ValueError not_unique_message).
Proof.
  cbv zeta. split.
  - apply do_experiment_keeps_consistent.
    split; [|split]; simpl; intros ? [].
  - split; vm_compute; reflexivity.
Qed.
